(** * bigwigCorrelate: a shallow embedding of [deeptools/bigwigCorrelate.py]

    The development follows the source file top-down:
    - [Py]: the few Python built-ins the program relies on
      ([str.startswith], [str.split], [str.join], [os.path.basename],
      file objects opened with ['r+'], [print], [exit]);
    - [Program]: [process_args] and [main], written in a small
      state-and-exception monad over an explicit [World];
    - [Engine]: the scoring engine [getScorePerBin], which lives in
      [deeptools/getScorePerBigWigBin.py];
    - the theorems about them. *)

From Stdlib Require Import ZArith String Ascii List Lia Permutation.
From stdpp Require Import base tactics option list strings gmap pretty.

Local Open Scope Z_scope.

(** ** Python built-ins *)

Module Py.

Definition TAB : string := String "009"%char EmptyString.
Definition NL : string := String "010"%char EmptyString.
Definition SLASH : ascii := "/"%char.

(** [s.startswith(p)] *)
Definition startswith (s p : string) : bool := String.prefix p s.

(** [s.split(sep)] for a one-character separator: never the empty list. *)
Fixpoint split (sep : ascii) (s : string) : list string :=
  match s with
  | EmptyString => [EmptyString]
  | String c s' =>
      if Ascii.eqb c sep then EmptyString :: split sep s'
      else match split sep s' with
           | [] => [String c EmptyString]
           | w :: ws => String c w :: ws
           end
  end.

(** [l[-1]]; [IndexError] (here [None]) on the empty list. *)
Definition item_last (l : list string) : option string := last l.

(** [sep.join(l)] *)
Definition join (sep : string) (l : list string) : string := String.concat sep l.

Fixpoint str_take (n : nat) (s : string) : string :=
  match n, s with
  | S n', String c s' => String c (str_take n' s')
  | _, _ => EmptyString
  end.

Fixpoint str_drop (n : nat) (s : string) : string :=
  match n, s with
  | S n', String _ s' => str_drop n' s'
  | _, _ => s
  end.

(** [s.rfind(c)]: the highest index of [c] in [s], or [-1]. *)
Fixpoint rfind_from (c : ascii) (s : string) (i acc : Z) : Z :=
  match s with
  | EmptyString => acc
  | String a s' => rfind_from c s' (i + 1) (if Ascii.eqb a c then i else acc)
  end.

Definition rfind (c : ascii) (s : string) : Z := rfind_from c s 0 (-1).

(** [s[i:]], with Python's reading of a negative [i]. *)
Definition slice_from (s : string) (i : Z) : string :=
  if i <? 0 then str_drop (Z.to_nat (Z.of_nat (String.length s) + i)) s
  else str_drop (Z.to_nat i) s.

(** [posixpath.basename]:
<<
    i = p.rfind('/') + 1
    return p[i:]
>> *)
Definition basename (p : string) : string :=
  let i := rfind SLASH p + 1 in
  slice_from p i.

(** A list or [None] used as a condition. *)
Definition truthy {A} (o : option (list A)) : bool :=
  match o with
  | Some (_ :: _) => true
  | _ => false
  end.

(** ["{}".format(n)] for an integer. *)
Definition format_int (n : Z) : string := pretty n.

(** *** File objects *)

Fixpoint nul_pad (n : nat) : string :=
  match n with
  | O => EmptyString
  | S n' => String "000"%char (nul_pad n')
  end.

(** Writing [s] at offset [pos] of a file holding [content]: the bytes
    under the written range are replaced, the rest is kept, and a gap
    past the end is filled with NUL bytes. *)
Definition write_at (pos : nat) (s content : string) : string :=
  str_take pos content +:+ nul_pad (pos - String.length content)
    +:+ s +:+ str_drop (pos + String.length s) content.

(** The argument of [exit]. *)
Inductive ExitArg :=
| ExitInt (n : Z)
| ExitStr (msg : string).

Inductive Exn :=
| IOError (filename : string)
| IndexError
| TypeError
| ConfigurationError (msg : string)
| FileAccessError (filename : string).

Inductive Outcome (A : Type) :=
| Ret (a : A)
| SystemExit (code : ExitArg)
| Raised (e : Exn).
Global Arguments Ret {A} a.
Global Arguments SystemExit {A} code.
Global Arguments Raised {A} e.

End Py.
Import Py.

(** ** The program state *)

(** Arguments of one call of [score_bw.getScorePerBin], as [main] passes them. *)
Record ScoreCall := {
  sc_bwFiles : list string;
  sc_binSize : Z;
  sc_numberOfProcessors : Z;
  sc_stepSize : Z;
  sc_verbose : bool;
  sc_region : option string;
  sc_bedFile : option string;
  sc_chrsToSkip : option (list string);
  sc_out_file_for_raw_data : option string
}.

(** A range query against one signal file: file, chromosome, start, end. *)
Definition Query : Type := string * string * Z * Z.

(** The [argparse] namespace.  File-typed options ([--outFileName],
    [--BED], [--outRawCounts]) are held by the name of the file that
    [argparse.FileType] opened; [BED] is [None] when the namespace has no
    such attribute. *)
Record Args := {
  bwfiles : list string;
  labels : option (list string);
  outFileName : string;
  BED : option (option string);
  binSize : Z;
  distanceBetweenBins : Z;
  numberOfProcessors : Z;
  verbose : bool;
  region : option string;
  chromosomesToSkip : option (list string);
  outRawCounts : option string
}.

Definition set_labels (a : Args) (l : option (list string)) : Args :=
  {| bwfiles := bwfiles a; labels := l; outFileName := outFileName a;
     BED := BED a; binSize := binSize a;
     distanceBetweenBins := distanceBetweenBins a;
     numberOfProcessors := numberOfProcessors a; verbose := verbose a;
     region := region a; chromosomesToSkip := chromosomesToSkip a;
     outRawCounts := outRawCounts a |}.

Section Program.

(** The type of one score (a float in the source); the program only
    moves scores around. *)
Context {V : Type}.

(** A 2-D array as the list of its rows; [shape[0]] is the number of rows. *)
Definition Matrix : Type := list (list V).
Definition shape0 (m : Matrix) : nat := length m.

(** What [np.savez_compressed(f, matrix=..., labels=...)] stores. *)
Record Npz := {
  npz_matrix : Matrix;
  npz_labels : option (list string)
}.

Record World := {
  w_stdout : string;
  w_stderr : string;
  w_files : gmap string string;
  w_npz : gmap string Npz;
  w_calls : list ScoreCall;
  w_queries : list Query
}.

Definition M (A : Type) : Type := World → Outcome A * World.

#[export] Instance M_ret : MRet M := λ A a w, (Ret a, w).
#[export] Instance M_bind : MBind M := λ A B k m w,
  match m w with
  | (Ret a, w') => k a w'
  | (SystemExit c, w') => (SystemExit c, w')
  | (Raised e, w') => (Raised e, w')
  end.

(** [print s] *)
Definition print (s : string) : M unit := λ w,
  (Ret (),
   {| w_stdout := w_stdout w +:+ s +:+ NL; w_stderr := w_stderr w;
      w_files := w_files w; w_npz := w_npz w; w_calls := w_calls w;
      w_queries := w_queries w |}).

(** [sys.stderr.write(s)] *)
Definition stderr_write (s : string) : M unit := λ w,
  (Ret (),
   {| w_stdout := w_stdout w; w_stderr := w_stderr w +:+ s;
      w_files := w_files w; w_npz := w_npz w; w_calls := w_calls w;
      w_queries := w_queries w |}).

(** [exit(c)] raises [SystemExit]. *)
Definition exit {A} (c : ExitArg) : M A := λ w, (SystemExit c, w).

Definition raise {A} (e : Exn) : M A := λ w, (Raised e, w).

Definition set_files (w : World) (fs : gmap string string) : World :=
  {| w_stdout := w_stdout w; w_stderr := w_stderr w; w_files := fs;
     w_npz := w_npz w; w_calls := w_calls w; w_queries := w_queries w |}.

(** An open file object: its name and its position. *)
Record File := { f_name : string; f_pos : nat }.

(** [open(name, 'r+')] *)
Definition open_rplus (name : string) : M File := λ w,
  match w_files w !! name with
  | Some _ => (Ret {| f_name := name; f_pos := 0 |}, w)
  | None => (Raised (IOError name), w)
  end.

(** [f.read()]: everything from the position to the end. *)
Definition f_read (f : File) : M (string * File) := λ w,
  match w_files w !! f_name f with
  | Some content =>
      (Ret (str_drop (f_pos f) content,
            {| f_name := f_name f;
               f_pos := Nat.max (f_pos f) (String.length content) |}), w)
  | None => (Raised (IOError (f_name f)), w)
  end.

(** [f.seek(off, 0)] *)
Definition f_seek (f : File) (off : nat) : M File :=
  mret {| f_name := f_name f; f_pos := off |}.

(** [f.write(s)] *)
Definition f_write (f : File) (s : string) : M File := λ w,
  match w_files w !! f_name f with
  | Some content =>
      (Ret {| f_name := f_name f; f_pos := (f_pos f + String.length s)%nat |},
       set_files w (<[f_name f := write_at (f_pos f) s content]> (w_files w)))
  | None => (Raised (IOError (f_name f)), w)
  end.

(** [np.savez_compressed(out, matrix=m, labels=l)] *)
Definition savez_compressed (out : string) (m : Matrix)
    (l : option (list string)) : M unit := λ w,
  (Ret (),
   {| w_stdout := w_stdout w; w_stderr := w_stderr w; w_files := w_files w;
      w_npz := <[out := {| npz_matrix := m; npz_labels := l |}]> (w_npz w);
      w_calls := w_calls w; w_queries := w_queries w |}).

(** *** [process_args] *)

(** The body of the loop over [args.bwfiles]. *)
Definition label_of (f : string) : M string :=
  if startswith f "http://" || startswith f "https://" || startswith f "ftp://"
  then match item_last (split SLASH f) with
       | Some l => mret l
       | None => raise IndexError
       end
  else mret (basename f).

Fixpoint derive_labels (fs : list string) (acc : list string) : M (list string) :=
  match fs with
  | [] => mret acc
  | f :: fs' => l ← label_of f; derive_labels fs' (acc ++ [l])
  end.

Definition process_args (args : Args) : M Args :=
  (if truthy (labels args)
      && negb (length (bwfiles args) =? length (default [] (labels args)))%nat
   then print "The number of labels does not match the number of bigWig files.";;
        exit (ExitInt 0)
   else mret ());;
  if negb (truthy (labels args))
  then ls ← derive_labels (bwfiles args) []; mret (set_labels args (Some ls))
  else mret args.

(** *** [main] *)

(** The scoring engine: from the call and the files on disk to the
    array (or the exception it raises), the files it leaves, and the
    range queries it made. *)
Variable getScorePerBin :
  ScoreCall → gmap string string → (Exn + Matrix) * gmap string string * list Query.

Definition call_getScorePerBin (c : ScoreCall) : M Matrix := λ w,
  let '(r, fs, qs) := getScorePerBin c (w_files w) in
  let w' := {| w_stdout := w_stdout w; w_stderr := w_stderr w; w_files := fs;
               w_npz := w_npz w; w_calls := w_calls w ++ [c];
               w_queries := w_queries w ++ qs |} in
  match r with
  | inl e => (Raised e, w')
  | inr m => (Ret m, w')
  end.

Definition too_few_bins : string :=
  "ERROR: too few non zero bins found." +:+ NL +:+
  "If using --region please check that this region is covered by reads." +:+ NL.

Definition raw_header (ls : list string) : string :=
  let header := "#'chr'" +:+ TAB +:+ "'start'" +:+ TAB +:+ "'end'" +:+ TAB in
  header +:+ ("'" +:+ join ("'" +:+ TAB +:+ "'") ls +:+ "'" +:+ NL).

(** The block under [if args.outRawCounts:]: the header is put in
    front of what the file holds.
<<
    with open(args.outRawCounts.name, 'r+') as f:
        content = f.read()
        f.seek(0, 0)
        f.write(header + content)
>> *)
Definition prepend_header (name : string) (ls : list string) : M unit :=
  let header := raw_header ls in
  f ← open_rplus name;
  '(content, f) ← f_read f;
  f ← f_seek f 0;
  _ ← f_write f (header +:+ content);
  mret ().

Definition main (args : Args) : M unit :=
  args ← process_args args;
  (if (length (bwfiles args) <? 2)%nat
   then print "Please input at least two bigWig (.bw) files to compare";;
        exit (ExitInt 1)
   else mret ());;
  let bed_regions := match BED args with Some b => b | None => None end in
  let bwFiles := bwfiles args in
  (if (length bwFiles =? 0)%nat
   then print "No valid bigwig files";; exit (ExitInt 1)
   else mret ());;
  num_reads_per_bin ← call_getScorePerBin
    {| sc_bwFiles := bwFiles;
       sc_binSize := binSize args;
       sc_numberOfProcessors := numberOfProcessors args;
       sc_stepSize := binSize args + distanceBetweenBins args;
       sc_verbose := verbose args;
       sc_region := region args;
       sc_bedFile := bed_regions;
       sc_chrsToSkip := chromosomesToSkip args;
       sc_out_file_for_raw_data := outRawCounts args |};
  stderr_write ("Number of bins found: "
                +:+ format_int (Z.of_nat (shape0 num_reads_per_bin)) +:+ NL);;
  (if (shape0 num_reads_per_bin <? 2)%nat
   then exit (ExitStr too_few_bins)
   else mret ());;
  savez_compressed (outFileName args) num_reads_per_bin (labels args);;
  match outRawCounts args with
  | Some name =>
      match labels args with
      | Some ls => prepend_header name ls
      | None => raise TypeError
      end
  | None => mret ()
  end.

(** What the interpreter writes to [stderr] for an exception that
    nothing catches: the traceback, which ends with the line of the
    exception.  Its text depends on the installation (paths and line
    numbers of the frames), so it is left open. *)
Variable traceback : Exn → string.

(** How the interpreter ends the process: the exit status, after
    [SystemExit] with a string has written it to [stderr], and after an
    uncaught exception has written its traceback there. *)
Definition run (args : Args) (w : World) : Z * World :=
  match main args w with
  | (Ret _, w') => (0, w')
  | (SystemExit (ExitInt n), w') => (n, w')
  | (SystemExit (ExitStr msg), w') =>
      (1, {| w_stdout := w_stdout w'; w_stderr := w_stderr w' +:+ msg +:+ NL;
             w_files := w_files w'; w_npz := w_npz w'; w_calls := w_calls w';
             w_queries := w_queries w' |})
  | (Raised e, w') =>
      (1, {| w_stdout := w_stdout w'; w_stderr := w_stderr w' +:+ traceback e;
             w_files := w_files w'; w_npz := w_npz w'; w_calls := w_calls w';
             w_queries := w_queries w' |})
  end.

End Program.

(** ** The scoring engine

    [score_bw.getScorePerBin] is defined in
    [deeptools/getScorePerBigWigBin.py], which is not among the sources.
    Every definition of this module is modelled from the specification
    (sections 3 to 6). *)

Module Engine.

(** A half-open, 0-based interval of one chromosome. *)
Record GenomicUnit := { chrom : string; u_start : Z; u_end : Z }.

(** What a signal reader answers to a range query. *)
Inductive Answer (V : Type) :=
| Value (v : V)
| NoData
| QueryFailed.
Global Arguments Value {V} v.
Global Arguments NoData {V}.
Global Arguments QueryFailed {V}.

(** A (chunk index, file index) pair handed to a worker. *)
Definition Task : Type := nat * nat.

Section Engine.

Context {V : Type} `{!EqDecision V}.

(** The numeric value 0. *)
Variable zero : V.

(** The signal reader: whether a file can be opened and read at all,
    and its range query. *)
Variable readable : string → bool.
Variable averageInRange : string → string → Z → Z → Answer V.

(** Chromosome names and lengths, in chromosome order. *)
Variable chromLengths : list (string * Z).

(** The externally parsed region list of a BED file. *)
Variable regionList : string → list GenomicUnit.

(** The chunk granularity chosen for a worker count and a unit count. *)
Variable granularity : Z → nat → nat.

(** The order in which the pool returns the tasks submitted to it. *)
Variable completion : Z → list Task → list Task.

(** How a score is printed in the raw table. *)
Variable format_score : V → string.

(** *** UnitPlanner *)

(** Modelled from the spec: the bin-mode walk of one chromosome by
    [UnitPlanner] ([getScorePerBigWigBin.py] is not among the sources):
    units of length [binSize] whose starts advance by [stride], the
    last one clipped to the chromosome length, units of length [<= 0]
    dropped.  A stride that is not positive yields no unit. *)
Definition bins_of_chrom (binSize stride : Z) (c : string) (len : Z)
    : list GenomicUnit :=
  let n := if stride <=? 0 then 0 else (len + stride - 1) / stride in
  filter (λ u, u_start u < u_end u)
    ((λ k, {| chrom := c; u_start := k * stride;
              u_end := Z.min (k * stride + binSize) len |}) <$> seqZ 0 n).

(** Modelled from the spec: [UnitPlanner.plan], absent from the
    sources.  [regions] is [None] in bin mode and the region list in
    region mode. *)
Definition plan (binSize stride : Z) (skipChroms : list string)
    (regions : option (list GenomicUnit)) : Exn + list GenomicUnit :=
  match regions with
  | None =>
      if binSize <=? 0
      then inl (ConfigurationError "bin size must be positive")
      else inr (flat_map
                  (λ cl, if bool_decide (cl.1 ∈ skipChroms) then []
                         else bins_of_chrom binSize stride cl.1 cl.2)
                  chromLengths)
  | Some [] => inl (ConfigurationError "empty region list")
  | Some rs => inr (filter (λ u, chrom u ∉ skipChroms) rs)
  end.

(** *** PerFileScorer *)

(** Modelled from the spec: [PerFileScorer.score], absent from the
    sources.  No data and a failed query both become 0. *)
Definition materialize (a : Answer V) : V :=
  match a with
  | Value v => v
  | NoData | QueryFailed => zero
  end.

Definition score_unit (f : string) (u : GenomicUnit) : V :=
  materialize (averageInRange f (chrom u) (u_start u) (u_end u)).

Definition score (f : string) (units : list GenomicUnit) : list V :=
  score_unit f <$> units.

(** *** ParallelAggregator *)

Definition chunk_len (workers : Z) (n : nat) : nat :=
  Nat.max 1 (granularity workers n).

Definition n_chunks (c n : nat) : nat := (n + c - 1) `div` c.

(** Modelled from the spec: the contiguous chunks the units are grouped
    into ([getScorePerBigWigBin.py] is absent); [chunk c units k] is the
    [k]-th chunk of [c] units. *)
Definition chunk (c : nat) (units : list GenomicUnit) (k : nat)
    : list GenomicUnit :=
  take c (drop (k * c) units).

(** Modelled from the spec: the work submitted to the pool, absent from
    the sources: every (chunk, file) pair. *)
Definition tasks (c n nfiles : nat) : list Task :=
  flat_map (λ k, (λ i, (k, i)) <$> seq 0 nfiles) (seq 0 (n_chunks c n)).

(** Modelled from the spec: what a worker, absent from the sources,
    returns: [(chunkIndex, file, values)]. *)
Definition work (files : list string) (units : list GenomicUnit) (c : nat)
    (t : Task) : nat * nat * list V :=
  (t.1, t.2,
   match files !! t.2 with
   | Some f => score f (chunk c units t.1)
   | None => []
   end).

(** Modelled from the spec: a write of [vals] into the preallocated
    array [arr] from index [off] on (the aggregator is absent from the
    sources). *)
Definition write_range (off : nat) (vals arr : list V) : list V :=
  take off arr ++ vals ++ drop (off + length vals) arr.

(** Modelled from the spec: the merge step of the aggregator, absent
    from the sources: a result is written into the preallocated array of
    its file, at the offset of its chunk. *)
Definition merge (c : nat) (arrays : list (list V))
    (r : nat * nat * list V) : list (list V) :=
  alter (write_range (r.1.1 * c) r.2) r.1.2 arrays.

(** Modelled from the spec: the degeneracy filter of the aggregator,
    absent from the sources: a unit is kept unless every file's value
    for it is exactly 0. *)
Definition keep_mask (n : nat) (arrays : list (list V)) : list bool :=
  (λ j, negb (forallb (λ arr, bool_decide (default zero (arr !! j) = zero))
                      arrays)) <$> seq 0 n.

(** Modelled from the spec: [ParallelAggregator.aggregate], absent from
    the sources: the per-file arrays, merged in completion order, and
    the keep mask. *)
Definition aggregate (files : list string) (units : list GenomicUnit)
    (workers : Z) : list (list V) * list bool :=
  let n := length units in
  let c := chunk_len workers n in
  let done := completion workers (tasks c n (length files)) in
  let arrays :=
    foldl (merge c) (replicate (length files) (replicate n zero))
          (work files units c <$> done) in
  (arrays, keep_mask n arrays).

(** The range queries behind a list of completed tasks. *)
Definition queries_of (files : list string) (units : list GenomicUnit)
    (c : nat) (done : list Task) : list Query :=
  flat_map
    (λ t, match files !! t.2 with
          | Some f => (λ u, (f, chrom u, u_start u, u_end u))
                        <$> chunk c units t.1
          | None => []
          end) done.

(** *** MatrixAssembler *)

Definition retain {A} (mask : list bool) (l : list A) : list A :=
  snd <$> filter (λ p, p.1 = true) (zip mask l).

(** Modelled from the spec: [MatrixAssembler.assemble], absent from the
    sources: the per-file vectors and the units, compressed by the
    keep mask. *)
Definition assemble (arrays : list (list V)) (mask : list bool)
    (units : list GenomicUnit) : list (list V) * list GenomicUnit :=
  (retain mask <$> arrays, retain mask units).

(** Modelled from the spec: the rows of the raw table (section 6),
    built by code absent from the sources: one row per retained unit,
    and in each row the values of the files in file input order. *)
Definition rows_of (n : nat) (vectors : list (list V)) : Matrix :=
  (λ j, (λ vec, default zero (vec !! j)) <$> vectors) <$> seq 0 n.

(** Modelled from the spec: one line of the raw table (section 6),
    written by code absent from the sources: the coordinates of the
    unit, then the values in file order, separated by tabs. *)
Definition raw_row (u : GenomicUnit) (row : list V) : string :=
  chrom u +:+ TAB +:+ format_int (u_start u) +:+ TAB
    +:+ format_int (u_end u) +:+ TAB
    +:+ join TAB (format_score <$> row) +:+ NL.

Definition raw_rows (us : list GenomicUnit) (m : Matrix) : string :=
  String.concat "" (zip_with raw_row us m).

(** Modelled from the spec: [getScorePerBin] of
    [getScorePerBigWigBin.py], absent from the sources, as the
    composition of planner, aggregator and assembler.  The array it
    returns is the assembler's, files by retained units (sections 3 and
    4.4); the raw table gets one line per retained unit (section 6). *)
Definition getScorePerBin (c : ScoreCall) (fs : gmap string string)
    : (Exn + Matrix) * gmap string string * list Query :=
  match plan (sc_binSize c) (sc_stepSize c) (default [] (sc_chrsToSkip c))
             (regionList <$> sc_bedFile c) with
  | inl e => (inl e, fs, [])
  | inr units =>
      match list_find (λ f, readable f = false) (sc_bwFiles c) with
      | Some (_, f) => (inl (FileAccessError f), fs, [])
      | None =>
          let files := sc_bwFiles c in
          let workers := sc_numberOfProcessors c in
          let '(arrays, mask) := aggregate files units workers in
          let '(vectors, retained) := assemble arrays mask units in
          let rows := rows_of (length retained) vectors in
          let n := length units in
          let cl := chunk_len workers n in
          let done := completion workers (tasks cl n (length files)) in
          (inr vectors,
           match sc_out_file_for_raw_data c with
           | Some name =>
               <[name := default "" (fs !! name) +:+ raw_rows retained rows]> fs
           | None => fs
           end,
           queries_of files units cl done)
      end
  end.

End Engine.

End Engine.

(** ** Vocabulary of the statements *)

(** A source is URL-style when its name starts with one of the three
    schemes [process_args] tests for. *)
Definition url_style (f : string) : bool :=
  startswith f "http://" || startswith f "https://" || startswith f "ftp://".

(** The label [process_args] derives from a file name. *)
Definition derived_label (f : string) : string :=
  if url_style f then default "" (item_last (split SLASH f)) else basename f.

Fixpoint has_char (c : ascii) (s : string) : bool :=
  match s with
  | EmptyString => false
  | String a s' => Ascii.eqb a c || has_char c s'
  end.

(** [lbl] is the substring of [s] after its final ['/'] (all of [s] when
    it has none). *)
Definition after_final_slash (s lbl : string) : Prop :=
  has_char SLASH lbl = false ∧
  ∃ p, s = p +:+ lbl ∧ (p = "" ∨ ∃ q, p = q +:+ "/").

(** The text before the first newline. *)
Fixpoint first_line (s : string) : string :=
  match s with
  | EmptyString => EmptyString
  | String c s' => if Ascii.eqb c "010" then EmptyString else String c (first_line s')
  end.

(** The header as the specification spells it. *)
Definition spec_header (ls : list string) : string :=
  "#chrom" +:+ TAB +:+ "start" +:+ TAB +:+ "end" +:+ TAB +:+ join TAB ls.

(** The call of the scoring engine that [main] builds from its arguments. *)
Definition engine_call (args : Args) : ScoreCall :=
  {| sc_bwFiles := bwfiles args;
     sc_binSize := binSize args;
     sc_numberOfProcessors := numberOfProcessors args;
     sc_stepSize := binSize args + distanceBetweenBins args;
     sc_verbose := verbose args;
     sc_region := region args;
     sc_bedFile := match BED args with Some b => b | None => None end;
     sc_chrsToSkip := chromosomesToSkip args;
     sc_out_file_for_raw_data := outRawCounts args |}.

(** The labels pass the check of [process_args]: none were given, or as
    many as there are files. *)
Definition labels_accepted (args : Args) : Prop :=
  truthy (labels args) = false ∨
  length (bwfiles args) = length (default [] (labels args)).

(** The labels [process_args] leaves in the namespace. *)
Definition final_labels (args : Args) : list string :=
  if truthy (labels args) then default [] (labels args)
  else derived_label <$> bwfiles args.

Definition set_numberOfProcessors (a : Args) (n : Z) : Args :=
  {| bwfiles := bwfiles a; labels := labels a; outFileName := outFileName a;
     BED := BED a; binSize := binSize a;
     distanceBetweenBins := distanceBetweenBins a;
     numberOfProcessors := n; verbose := verbose a;
     region := region a; chromosomesToSkip := chromosomesToSkip a;
     outRawCounts := outRawCounts a |}.

(** Row [i] of the matrix is the score vector of file [i]: the reading
    of the matrix as files by retained units. *)
Definition rows_are_files {V} (m : list (list V)) (files : list string)
    (vector_of : string → list V) : Prop :=
  length m = length files ∧
  ∀ i f, files !! i = Some f → m !! i = Some (vector_of f).

(** The worlds [main] passes through once it has reached the engine. *)
Section Worlds.

Context {V : Type}.
Variable getScorePerBin :
  ScoreCall → gmap string string → (Exn + Matrix (V:=V)) * gmap string string * list Query.

(** The world when the engine has returned. *)
Definition after_engine (args : Args) (w : World (V:=V)) : World (V:=V) :=
  (call_getScorePerBin getScorePerBin (engine_call args) w).2.

(** The world when the number of bins has been written. *)
Definition after_count (args : Args) (w : World (V:=V)) (m : Matrix (V:=V)) : World (V:=V) :=
  (stderr_write ("Number of bins found: "
                 +:+ format_int (Z.of_nat (shape0 m)) +:+ NL)
                (after_engine args w)).2.

(** The world when the matrix has been saved. *)
Definition after_save (args : Args) (w : World (V:=V)) (m : Matrix (V:=V)) : World (V:=V) :=
  (savez_compressed (outFileName args) m (Some (final_labels args))
                    (after_count args w m)).2.

End Worlds.

(** The outcome of the engine, unit by unit. *)
Section Retained.

Context {V : Type} `{!EqDecision V}.
Variable zero : V.
Variable averageInRange : string → string → Z → Z → Engine.Answer V.

(** A unit is kept unless every file's value for it is exactly 0. *)
Definition kept (files : list string) (u : Engine.GenomicUnit) : bool :=
  negb (forallb
          (λ f, bool_decide (Engine.score_unit zero averageInRange f u = zero))
          files).

Definition retained_units (files : list string)
    (units : list Engine.GenomicUnit) : list Engine.GenomicUnit :=
  filter (λ u, kept files u = true) units.

(** One vector per file, in the order of [files]: the scores of the
    file on the retained units. *)
Definition score_vectors (files : list string)
    (units : list Engine.GenomicUnit) : Matrix (V:=V) :=
  (λ f, Engine.score_unit zero averageInRange f <$> retained_units files units)
    <$> files.

(** The rows of the raw table: one row per retained unit, and in each
    row the scores of the files in the order of [files]. *)
Definition score_matrix (files : list string)
    (units : list Engine.GenomicUnit) : Matrix (V:=V) :=
  (λ u, (λ f, Engine.score_unit zero averageInRange f u) <$> files)
    <$> retained_units files units.

End Retained.

(** The engine without its pool: every file scored on every planned
    unit, in order.  The worker count, the chunk granularity and the
    completion order do not occur in it. *)
Section Sequential.

Context {V : Type} `{!EqDecision V}.
Variable zero : V.
Variable readable : string → bool.
Variable averageInRange : string → string → Z → Z → Engine.Answer V.
Variable chromLengths : list (string * Z).
Variable regionList : string → list Engine.GenomicUnit.
Variable format_score : V → string.

Definition sequential_engine (c : ScoreCall) (fs : gmap string string)
    : (Exn + Matrix (V:=V)) * gmap string string :=
  match Engine.plan chromLengths (sc_binSize c) (sc_stepSize c)
                    (default [] (sc_chrsToSkip c))
                    (regionList <$> sc_bedFile c) with
  | inl e => (inl e, fs)
  | inr units =>
      match list_find (λ f, readable f = false) (sc_bwFiles c) with
      | Some (_, f) => (inl (FileAccessError f), fs)
      | None =>
          let m := score_vectors zero averageInRange (sc_bwFiles c) units in
          let rows := score_matrix zero averageInRange (sc_bwFiles c) units in
          let retained := retained_units zero averageInRange (sc_bwFiles c) units in
          (inr m,
           match sc_out_file_for_raw_data c with
           | Some name =>
               <[name := default "" (fs !! name)
                         +:+ Engine.raw_rows format_score retained rows]> fs
           | None => fs
           end)
      end
  end.

End Sequential.

(** What a run leaves for its user to see: the two streams, the files
    and the saved containers. *)
Definition observable {V} (w : World (V:=V))
    : string * string * gmap string string * gmap string (Npz (V:=V)) :=
  (w_stdout w, w_stderr w, w_files w, w_npz w).

(** The header without its newline. *)
Definition header_line (ls : list string) : string :=
  "#'chr'" +:+ TAB +:+ "'start'" +:+ TAB +:+ "'end'" +:+ TAB
    +:+ "'" +:+ join ("'" +:+ TAB +:+ "'") ls +:+ "'".

(** [sub in s]: whether [sub] occurs in [s]. *)
Definition contains (sub s : string) : bool :=
  match String.index 0 sub s with
  | Some _ => true
  | None => false
  end.

(** A name in single quotes, as the header writes it. *)
Definition quoted (l : string) : string := "'" +:+ l +:+ "'".

(** ** A small genome for the examples *)

Module Demo.

(** Two signal files over one chromosome of 30000 bases. *)
Definition reader (f chrom : string) (s e : Z) : Engine.Answer Z :=
  if String.eqb f "a.bw" then Engine.Value (s / 10000 + 1)
  else if String.eqb f "b.bw" then Engine.Value (10 * (s / 10000 + 1))
  else Engine.QueryFailed.

Definition regions (bed : string) : list Engine.GenomicUnit :=
  if String.eqb bed "one.bed"
  then [ {| Engine.chrom := "chr1"; Engine.u_start := 0; Engine.u_end := 10000 |} ]
  else [].

(** A traceback of one line, the line of the exception. *)
Definition traceback (e : Exn) : string :=
  match e with
  | IOError name => "IOError: " +:+ name +:+ NL
  | IndexError => "IndexError" +:+ NL
  | TypeError => "TypeError" +:+ NL
  | ConfigurationError msg => "ConfigurationError: " +:+ msg +:+ NL
  | FileAccessError name => "FileAccessError: " +:+ name +:+ NL
  end.

(** Two pools: one returns the tasks as submitted, one last first. *)
Definition in_order (workers : Z) (ts : list Engine.Task) : list Engine.Task := ts.
Definition last_first (workers : Z) (ts : list Engine.Task) : list Engine.Task :=
  rev ts.

Definition engine (completion : Z → list Engine.Task → list Engine.Task) :=
  Engine.getScorePerBin 0 (λ _, true) reader [("chr1", 30000)] regions
                        (λ workers _, Z.to_nat workers) completion pretty.

Definition world : World (V:=Z) :=
  {| w_stdout := ""; w_stderr := ""; w_files := {[ "raw.tab" := "" ]};
     w_npz := ∅; w_calls := []; w_queries := [] |}.

Definition args_bins : Args :=
  {| bwfiles := ["a.bw"; "b.bw"]; labels := None; outFileName := "out.npz";
     BED := Some None; binSize := 10000; distanceBetweenBins := 0;
     numberOfProcessors := 1; verbose := false; region := None;
     chromosomesToSkip := None; outRawCounts := Some "raw.tab" |}.

(** Scenario E: two files, one label. *)
Definition args_mismatch : Args := set_labels args_bins (Some ["x"]).

(** One file, two labels. *)
Definition args_one_file : Args :=
  {| bwfiles := ["a.bw"]; labels := Some ["x"; "y"]; outFileName := "out.npz";
     BED := Some None; binSize := 10000; distanceBetweenBins := 0;
     numberOfProcessors := 1; verbose := false; region := None;
     chromosomesToSkip := None; outRawCounts := None |}.

Definition args_bad_bin : Args :=
  {| bwfiles := ["a.bw"; "b.bw"]; labels := None; outFileName := "out.npz";
     BED := Some None; binSize := 0; distanceBetweenBins := 0;
     numberOfProcessors := 1; verbose := false; region := None;
     chromosomesToSkip := None; outRawCounts := None |}.

(** Scenario B: a gap of 5000 bases between bins. *)
Definition args_gap : Args :=
  {| bwfiles := ["a.bw"; "b.bw"]; labels := None; outFileName := "out.npz";
     BED := Some None; binSize := 10000; distanceBetweenBins := 5000;
     numberOfProcessors := 1; verbose := false; region := None;
     chromosomesToSkip := None; outRawCounts := None |}.

(** A URL-style source next to a local path. *)
Definition args_url : Args :=
  {| bwfiles := ["http://host/dir/a.bw"; "/data/run1/b.bw"]; labels := None;
     outFileName := "out.npz"; BED := Some None; binSize := 10000;
     distanceBetweenBins := 0; numberOfProcessors := 1; verbose := false;
     region := None; chromosomesToSkip := None; outRawCounts := None |}.

(** One file and no labels. *)
Definition args_single : Args :=
  {| bwfiles := ["a.bw"]; labels := None; outFileName := "out.npz";
     BED := Some None; binSize := 10000; distanceBetweenBins := 0;
     numberOfProcessors := 1; verbose := false; region := None;
     chromosomesToSkip := None; outRawCounts := None |}.

(** What the engine returns for [args_bins]: the array, the files and
    the queries. *)
Definition scored : (Exn + Matrix (V:=Z)) * gmap string string * list Query :=
  engine in_order (engine_call args_bins) (w_files world).

Definition scored_matrix : Matrix (V:=Z) :=
  match scored.1.1 with
  | inr m => m
  | inl _ => []
  end.

Definition scored_rows : string := default "" (scored.1.2 !! "raw.tab").

(** A world in which the raw file already holds two rows. *)
Definition world_rows : World (V:=Z) :=
  {| w_stdout := ""; w_stderr := "";
     w_files := {[ "raw.tab" := "chr1" +:+ TAB +:+ "0" +:+ TAB +:+ "10" +:+ TAB
                                +:+ "1.5" +:+ NL +:+
                                "chr1" +:+ TAB +:+ "10" +:+ TAB +:+ "20" +:+ TAB
                                +:+ "2.5" +:+ NL;
                  "other.txt" := "kept" ]};
     w_npz := ∅; w_calls := []; w_queries := [] |}.

(** Two files with two labels of the user's. *)
Definition args_supplied : Args :=
  {| bwfiles := ["/data/a.bw"; "/data/b.bw"]; labels := Some ["ctrl"; "chip"];
     outFileName := "out.npz"; BED := Some None; binSize := 10000;
     distanceBetweenBins := 0; numberOfProcessors := 1; verbose := false;
     region := None; chromosomesToSkip := None; outRawCounts := None |}.

(** The bins run without raw output. *)
Definition args_plain : Args :=
  {| bwfiles := ["a.bw"; "b.bw"]; labels := None; outFileName := "out.npz";
     BED := Some None; binSize := 10000; distanceBetweenBins := 0;
     numberOfProcessors := 1; verbose := false; region := None;
     chromosomesToSkip := None; outRawCounts := None |}.

(** An engine that finds one bin: it returns an array of one row and
    leaves the files as they are. *)
Definition engine_one_bin (c : ScoreCall) (fs : gmap string string)
    : (Exn + Matrix (V:=Z)) * gmap string string * list Query :=
  (inr [[1; 10]], fs, []).

(** An engine that returns two bins and leaves no raw file behind. *)
Definition engine_dropping (c : ScoreCall) (fs : gmap string string)
    : (Exn + Matrix (V:=Z)) * gmap string string * list Query :=
  (inr [[1; 10]; [2; 20]], delete "raw.tab" fs, []).

End Demo.

(** ** Facts about the built-ins *)

Section PyFacts.

Lemma str_app_cons (x : ascii) (a b : string) :
  String x a +:+ b = String x (a +:+ b).
Proof. reflexivity. Qed.

Lemma str_app_nil_l (a : string) : "" +:+ a = a.
Proof. reflexivity. Qed.

Lemma str_app_assoc (a b c : string) : (a +:+ b) +:+ c = a +:+ (b +:+ c).
Proof.
  induction a as [|x a IH]; [done|].
  by rewrite !str_app_cons, IH.
Qed.

Lemma str_app_nil_r (a : string) : a +:+ "" = a.
Proof.
  induction a as [|x a IH]; [done|].
  by rewrite str_app_cons, IH.
Qed.

Lemma str_length_app (a b : string) :
  String.length (a +:+ b) = (String.length a + String.length b)%nat.
Proof.
  induction a as [|x a IH]; [done|].
  rewrite str_app_cons. simpl. by rewrite IH.
Qed.

Lemma str_drop_0 (s : string) : str_drop 0 s = s.
Proof. by destruct s. Qed.

Lemma str_take_0 (s : string) : str_take 0 s = "".
Proof. by destruct s. Qed.

Lemma str_drop_ge (n : nat) (s : string) :
  (String.length s ≤ n)%nat → str_drop n s = "".
Proof.
  revert n; induction s as [|x s IH]; intros [|n] Hn; simpl in *; try done; try lia.
  apply IH; lia.
Qed.

Lemma str_drop_app (p s : string) : str_drop (String.length p) (p +:+ s) = s.
Proof. induction p as [|x p IH]; simpl; [apply str_drop_0 | done]. Qed.

Lemma has_char_app (c : ascii) (a b : string) :
  has_char c (a +:+ b) = has_char c a || has_char c b.
Proof.
  induction a as [|x a IH]; simpl; [done |].
  by rewrite IH, orb_assoc.
Qed.

(** Writing at the start a text at least as long as the file replaces
    the whole file. *)
Lemma write_at_0_covering (s content : string) :
  (String.length content ≤ String.length s)%nat →
  write_at 0 s content = s.
Proof.
  intros Hlen. unfold write_at.
  rewrite str_take_0. simpl.
  rewrite str_drop_ge by done. apply str_app_nil_r.
Qed.

(** The shape of [split]: a first piece without the separator, and,
    when more pieces follow, the last of them is what comes after the
    final separator. *)
Lemma split_shape (c : ascii) (s : string) :
  ∃ w ws, split c s = w :: ws ∧ has_char c w = false ∧
    (ws = [] → s = w) ∧
    (ws ≠ [] → ∃ lbl q, last ws = Some lbl ∧ has_char c lbl = false ∧
                        s = q +:+ String c lbl).
Proof.
  induction s as [|a s IH].
  - exists "", []. simpl. naive_solver.
  - destruct IH as (w & ws & Hs & Hw & Hnil & Hcons). simpl.
    destruct (Ascii.eqb a c) eqn:Hac.
    + apply Ascii.eqb_eq in Hac as ->.
      exists "", (w :: ws). rewrite Hs. split_and!; [done..|].
      intros _. destruct ws as [|w' ws].
      * exists w, "". rewrite (Hnil eq_refl). by simpl.
      * destruct Hcons as (lbl & q & Hl & Hn & ->); [done|].
        exists lbl, (String c q). by simpl.
    + rewrite Hs. exists (String a w), ws. split_and!.
      * done.
      * simpl. by rewrite Hac, Hw.
      * intros ->. by rewrite (Hnil eq_refl).
      * intros Hne. destruct (Hcons Hne) as (lbl & q & Hl & Hn & ->).
        by exists lbl, (String a q).
Qed.

Lemma split_last_segment (s : string) :
  ∃ lbl, item_last (split SLASH s) = Some lbl ∧ after_final_slash s lbl.
Proof.
  destruct (split_shape SLASH s) as (w & ws & Hs & Hw & Hnil & Hcons).
  unfold item_last. rewrite Hs. destruct ws as [|w' ws].
  - exists w. split; [done|]. split; [done|].
    exists "". rewrite (Hnil eq_refl). auto.
  - destruct Hcons as (lbl & q & Hl & Hn & ->); [done|].
    exists lbl. split; [by rewrite last_cons, Hl|]. split; [done|].
    exists (q +:+ "/"). split; [|eauto].
    by rewrite str_app_assoc.
Qed.

Lemma rfind_from_spec (c : ascii) (s : string) (i acc : Z) :
  (has_char c s = false ∧ rfind_from c s i acc = acc) ∨
  (∃ p q, s = p +:+ String c q ∧ has_char c q = false ∧
          rfind_from c s i acc = i + Z.of_nat (String.length p)).
Proof.
  revert i acc. induction s as [|a s IH]; intros i acc; simpl.
  - by left.
  - destruct (IH (i + 1) (if Ascii.eqb a c then i else acc))
      as [[Hno ->]|(p & q & -> & Hq & ->)].
    + destruct (Ascii.eqb a c) eqn:Hac.
      * apply Ascii.eqb_eq in Hac as ->. right.
        exists "", s. simpl. split_and!; [done..|lia].
      * left. by rewrite Hno.
    + right. exists (String a p), q. simpl. split_and!; [done..|lia].
Qed.

Lemma basename_last_segment (s : string) : after_final_slash s (basename s).
Proof.
  unfold basename, rfind.
  destruct (rfind_from_spec SLASH s 0 (-1)) as [[Hno ->]|(p & q & -> & Hq & ->)].
  - unfold slice_from. simpl.
    split; [done|]. exists "". auto.
  - unfold slice_from.
    destruct (Z.ltb_spec (0 + Z.of_nat (String.length p) + 1) 0) as [?|_]; [lia|].
    replace (Z.to_nat (0 + Z.of_nat (String.length p) + 1))
      with (String.length (p +:+ "/")) by (rewrite str_length_app; simpl; lia).
    replace (p +:+ String SLASH q) with ((p +:+ "/") +:+ q)
      by (by rewrite str_app_assoc).
    rewrite str_drop_app. split; [done|]. exists (p +:+ "/"). eauto.
Qed.

Lemma derived_label_after_final_slash (f : string) :
  after_final_slash f (derived_label f).
Proof.
  unfold derived_label. destruct (url_style f).
  - destruct (split_last_segment f) as (lbl & -> & H). done.
  - apply basename_last_segment.
Qed.

Lemma first_line_app_nl (a b : string) :
  has_char "010" a = false → first_line (a +:+ NL +:+ b) = a.
Proof.
  induction a as [|x a IH]; simpl; [done|].
  intros [Hx Ha]%orb_false_iff. by rewrite Hx, IH.
Qed.

End PyFacts.

(** ** Facts about [process_args] and [main] *)

Section ProgramFacts.

Context {V : Type}.
Variable getScorePerBin :
  ScoreCall → gmap string string → (Exn + Matrix (V:=V)) * gmap string string * list Query.
Variable traceback : Exn → string.

Ltac munfold := unfold mbind, M_bind, mret, M_ret.

Lemma label_of_ret (f : string) (w : World (V:=V)) :
  label_of f w = (Ret (derived_label f), w).
Proof.
  unfold label_of, derived_label, url_style.
  destruct (_ || _); [|done].
  by destruct (split_last_segment f) as (lbl & -> & _).
Qed.

Lemma derive_labels_ret (fs acc : list string) (w : World (V:=V)) :
  derive_labels fs acc w = (Ret (acc ++ (derived_label <$> fs)), w).
Proof.
  revert acc. induction fs as [|f fs IH]; intros acc; simpl.
  - by rewrite app_nil_r.
  - munfold. rewrite label_of_ret, IH. by rewrite <-app_assoc.
Qed.

Lemma process_args_rejected (args : Args) (w : World (V:=V)) :
  truthy (labels args) = true →
  length (bwfiles args) ≠ length (default [] (labels args)) →
  process_args args w =
    (SystemExit (ExitInt 0),
     (print "The number of labels does not match the number of bigWig files." w).2).
Proof.
  intros Ht Hlen. unfold process_args. rewrite Ht.
  apply Nat.eqb_neq in Hlen. rewrite Hlen. reflexivity.
Qed.

Lemma process_args_accepted (args : Args) (w : World (V:=V)) :
  labels_accepted args →
  process_args args w = (Ret (set_labels args (Some (final_labels args))), w).
Proof.
  intros Hacc. unfold process_args, final_labels.
  destruct (truthy (labels args)) eqn:Ht.
  - destruct Hacc as [?|Hlen]; [congruence|].
    apply Nat.eqb_eq in Hlen. rewrite Hlen. munfold. simpl.
    destruct args as [? [l|] ? ? ? ? ? ? ? ? ?]; simpl in *; done.
  - munfold. simpl. by rewrite derive_labels_ret.
Qed.

Lemma length_final_labels (args : Args) :
  labels_accepted args → length (final_labels args) = length (bwfiles args).
Proof.
  intros Hacc. unfold final_labels.
  destruct (truthy (labels args)) eqn:Ht.
  - destruct Hacc as [?|Hlen]; [congruence|done].
  - by rewrite length_fmap.
Qed.

Lemma labels_accepted_dec (args : Args) :
  labels_accepted args ∨
  (truthy (labels args) = true ∧
   length (bwfiles args) ≠ length (default [] (labels args))).
Proof.
  unfold labels_accepted. destruct (truthy (labels args)); [|by left; left].
  destruct (decide (length (bwfiles args) = length (default [] (labels args))));
    [left; by right | by right].
Qed.

(** *** The paths through [main] *)

Lemma main_rejected (args : Args) (w : World (V:=V)) :
  truthy (labels args) = true →
  length (bwfiles args) ≠ length (default [] (labels args)) →
  main getScorePerBin args w =
    (SystemExit (ExitInt 0),
     (print "The number of labels does not match the number of bigWig files." w).2).
Proof.
  intros Ht Hlen. unfold main. munfold.
  by rewrite process_args_rejected.
Qed.

Lemma main_few_files (args : Args) (w : World (V:=V)) :
  labels_accepted args →
  (length (bwfiles args) < 2)%nat →
  main getScorePerBin args w =
    (SystemExit (ExitInt 1),
     (print "Please input at least two bigWig (.bw) files to compare" w).2).
Proof.
  intros Hacc Hn. unfold main. munfold.
  rewrite process_args_accepted by done. simpl.
  apply Nat.ltb_lt in Hn. by rewrite Hn.
Qed.

Lemma main_engine_raises (args : Args) (w : World (V:=V)) e fs qs :
  labels_accepted args →
  (2 ≤ length (bwfiles args))%nat →
  getScorePerBin (engine_call args) (w_files w) = (inl e, fs, qs) →
  main getScorePerBin args w = (Raised e, after_engine getScorePerBin args w).
Proof.
  intros Hacc Hn He. unfold main, after_engine. munfold.
  rewrite process_args_accepted by done. simpl.
  destruct (Nat.ltb_spec (length (bwfiles args)) 2) as [?|_]; [lia|].
  destruct (Nat.eqb_spec (length (bwfiles args)) 0) as [?|_]; [lia|].
  unfold call_getScorePerBin, engine_call in *. simpl in *.
  by rewrite He.
Qed.

Lemma main_too_few_bins (args : Args) (w : World (V:=V)) (m : Matrix (V:=V)) fs qs :
  labels_accepted args →
  (2 ≤ length (bwfiles args))%nat →
  getScorePerBin (engine_call args) (w_files w) = (inr m, fs, qs) →
  (shape0 m < 2)%nat →
  main getScorePerBin args w =
    (SystemExit (ExitStr too_few_bins), after_count getScorePerBin args w m).
Proof.
  intros Hacc Hn He Hm. unfold main, after_count, after_engine. munfold.
  rewrite process_args_accepted by done. simpl.
  destruct (Nat.ltb_spec (length (bwfiles args)) 2) as [?|_]; [lia|].
  destruct (Nat.eqb_spec (length (bwfiles args)) 0) as [?|_]; [lia|].
  unfold call_getScorePerBin, engine_call in *. simpl in *.
  rewrite He. simpl.
  apply Nat.ltb_lt in Hm. by rewrite Hm.
Qed.

Lemma main_completes (args : Args) (w : World (V:=V)) (m : Matrix (V:=V)) fs qs :
  labels_accepted args →
  (2 ≤ length (bwfiles args))%nat →
  getScorePerBin (engine_call args) (w_files w) = (inr m, fs, qs) →
  (2 ≤ shape0 m)%nat →
  main getScorePerBin args w =
    match outRawCounts args with
    | Some name => prepend_header name (final_labels args) (after_save getScorePerBin args w m)
    | None => (Ret (), after_save getScorePerBin args w m)
    end.
Proof.
  intros Hacc Hn He Hm. unfold main, after_save, after_count, after_engine. munfold.
  rewrite process_args_accepted by done. simpl.
  destruct (Nat.ltb_spec (length (bwfiles args)) 2) as [?|_]; [lia|].
  destruct (Nat.eqb_spec (length (bwfiles args)) 0) as [?|_]; [lia|].
  unfold call_getScorePerBin, engine_call in *. simpl in *.
  rewrite He. simpl.
  destruct (Nat.ltb_spec (shape0 m) 2) as [?|_]; [lia|].
  by destruct (outRawCounts args).
Qed.

(** [prepend_header] in full: it fails when the file is missing and
    otherwise rewrites that one file. *)
Lemma prepend_header_spec (name : string) (ls : list string) (w : World (V:=V)) :
  prepend_header name ls w =
    match w_files w !! name with
    | Some content =>
        (Ret (), set_files w (<[name := raw_header ls +:+ content]> (w_files w)))
    | None => (Raised (IOError name), w)
    end.
Proof.
  unfold prepend_header. munfold. unfold open_rplus, f_read, f_seek, f_write.
  munfold. simpl.
  destruct (w_files w !! name) as [content|] eqn:Hc; [|done]. simpl.
  rewrite Hc. simpl. rewrite Hc. simpl.
  rewrite write_at_0_covering; [done|].
  rewrite str_length_app. lia.
Qed.

(** *** The worlds on the way *)

Lemma after_engine_eq (args : Args) (w : World (V:=V)) r fs qs :
  getScorePerBin (engine_call args) (w_files w) = (r, fs, qs) →
  after_engine getScorePerBin args w =
    {| w_stdout := w_stdout w; w_stderr := w_stderr w; w_files := fs;
       w_npz := w_npz w; w_calls := w_calls w ++ [engine_call args];
       w_queries := w_queries w ++ qs |}.
Proof.
  intros He. unfold after_engine, call_getScorePerBin. rewrite He.
  by destruct r.
Qed.

Lemma after_count_eq (args : Args) (w : World (V:=V)) (m : Matrix (V:=V)) r fs qs :
  getScorePerBin (engine_call args) (w_files w) = (r, fs, qs) →
  after_count getScorePerBin args w m =
    {| w_stdout := w_stdout w;
       w_stderr := w_stderr w +:+ "Number of bins found: "
                   +:+ format_int (Z.of_nat (shape0 m)) +:+ NL;
       w_files := fs;
       w_npz := w_npz w; w_calls := w_calls w ++ [engine_call args];
       w_queries := w_queries w ++ qs |}.
Proof.
  intros He. unfold after_count. by rewrite (after_engine_eq _ _ _ _ _ He).
Qed.

Lemma after_save_eq (args : Args) (w : World (V:=V)) (m : Matrix (V:=V)) r fs qs :
  getScorePerBin (engine_call args) (w_files w) = (r, fs, qs) →
  after_save getScorePerBin args w m =
    {| w_stdout := w_stdout w;
       w_stderr := w_stderr w +:+ "Number of bins found: "
                   +:+ format_int (Z.of_nat (shape0 m)) +:+ NL;
       w_files := fs;
       w_npz := <[outFileName args :=
                    {| npz_matrix := m;
                       npz_labels := Some (final_labels args) |}]> (w_npz w);
       w_calls := w_calls w ++ [engine_call args];
       w_queries := w_queries w ++ qs |}.
Proof.
  intros He. unfold after_save. by rewrite (after_count_eq _ _ _ _ _ _ He).
Qed.

(** *** [run] in one equation *)

Lemma run_spec (args : Args) (w : World (V:=V)) :
  run getScorePerBin traceback args w =
    if truthy (labels args)
       && negb (length (bwfiles args) =? length (default [] (labels args)))%nat
    then (0, (print "The number of labels does not match the number of bigWig files." w).2)
    else if (length (bwfiles args) <? 2)%nat
    then (1, (print "Please input at least two bigWig (.bw) files to compare" w).2)
    else
      match getScorePerBin (engine_call args) (w_files w) with
      | (inl e, fs, qs) =>
          (1, (stderr_write (traceback e)
                 (after_engine getScorePerBin args w)).2)
      | (inr m, fs, qs) =>
          if (shape0 m <? 2)%nat
          then (1, (stderr_write (too_few_bins +:+ NL)
                      (after_count getScorePerBin args w m)).2)
          else
            let w3 := after_save getScorePerBin args w m in
            match outRawCounts args with
            | None => (0, w3)
            | Some name =>
                match fs !! name with
                | Some content =>
                    (0, set_files w3
                          (<[name := raw_header (final_labels args) +:+ content]> fs))
                | None => (1, (stderr_write (traceback (IOError name)) w3).2)
                end
            end
      end.
Proof.
  unfold run.
  destruct (labels_accepted_dec args) as [Hacc|[Ht Hlen]].
  - assert (truthy (labels args)
            && negb (length (bwfiles args) =? length (default [] (labels args)))%nat
            = false) as ->.
    { destruct Hacc as [-> | ->]; [done|].
      rewrite Nat.eqb_refl. apply andb_false_r. }
    destruct (Nat.ltb_spec (length (bwfiles args)) 2) as [Hfew|Hn].
    + by rewrite main_few_files.
    + destruct (getScorePerBin (engine_call args) (w_files w))
        as [[[e|m] fs] qs] eqn:He.
      * by rewrite (main_engine_raises _ _ _ _ _ Hacc Hn He).
      * destruct (Nat.ltb_spec (shape0 m) 2) as [Hm|Hm].
        -- by rewrite (main_too_few_bins _ _ _ _ _ Hacc Hn He Hm).
        -- rewrite (main_completes _ _ _ _ _ Hacc Hn He Hm).
           destruct (outRawCounts args) as [name|]; [|done].
           rewrite prepend_header_spec.
           rewrite (after_save_eq _ _ _ _ _ _ He). simpl.
           by destruct (fs !! name).
  - rewrite main_rejected by done. rewrite Ht.
    apply Nat.eqb_neq in Hlen. by rewrite Hlen.
Qed.

End ProgramFacts.

(** ** Facts about the scoring engine *)

Section EngineFacts.

Context {V : Type} `{!EqDecision V}.
Variable zero : V.
Variable averageInRange : string → string → Z → Z → Engine.Answer V.

Local Abbreviation score_unit := (Engine.score_unit zero averageInRange).
Local Abbreviation score := (Engine.score zero averageInRange).
Local Abbreviation work := (Engine.work zero averageInRange).

Local Open Scope nat_scope.

Lemma div_eq_iff (j c k : nat) :
  c ≠ 0 → j `div` c = k ↔ k * c ≤ j < k * c + c.
Proof.
  intros Hc. split.
  - intros <-. pose proof (Nat.div_mod_eq j c).
    pose proof (Nat.mod_upper_bound j c Hc). nia.
  - intros Hj. symmetry. apply (Nat.div_unique j c k (j - k * c)); lia.
Qed.

Lemma div_lt_n_chunks (j c n : nat) :
  c ≠ 0 → j < n → j `div` c < Engine.n_chunks c n.
Proof.
  intros Hc Hj. unfold Engine.n_chunks.
  apply Nat.Div0.div_lt_upper_bound.
  pose proof (Nat.div_mod_eq (n + c - 1) c).
  pose proof (Nat.mod_upper_bound (n + c - 1) c Hc). lia.
Qed.

Lemma elem_of_tasks (c n nfiles k i : nat) :
  (k, i) ∈ Engine.tasks c n nfiles ↔ k < Engine.n_chunks c n ∧ i < nfiles.
Proof.
  unfold Engine.tasks. rewrite list_elem_of_In, in_flat_map. split.
  - intros (k' & Hk%list_elem_of_In%elem_of_seq
               & (i' & [= -> ->] & Hi%elem_of_seq)%list_elem_of_In%list_elem_of_fmap).
    lia.
  - intros [Hk Hi]. exists k. split.
    + apply list_elem_of_In, elem_of_seq. lia.
    + apply list_elem_of_In, list_elem_of_fmap. exists i. split; [done|].
      apply elem_of_seq. lia.
Qed.

Lemma write_range_nil (off : nat) (arr : list V) :
  Engine.write_range off [] arr = arr.
Proof.
  unfold Engine.write_range. simpl. rewrite Nat.add_0_r. apply take_drop.
Qed.

Lemma length_write_range (off : nat) (vals arr : list V) :
  off + length vals ≤ length arr →
  length (Engine.write_range off vals arr) = length arr.
Proof.
  intros Hle. unfold Engine.write_range.
  rewrite !length_app, length_take, length_drop. lia.
Qed.

Lemma lookup_write_range (off : nat) (vals arr : list V) (j : nat) :
  off + length vals ≤ length arr →
  Engine.write_range off vals arr !! j =
    if decide (off ≤ j < off + length vals) then vals !! (j - off) else arr !! j.
Proof.
  intros Hle. unfold Engine.write_range.
  assert (length (take off arr) = off) as Htake by (rewrite length_take; lia).
  destruct (decide (j < off)) as [Hlt|Hge].
  - rewrite lookup_app_l by lia. rewrite lookup_take_lt by done.
    case_decide; [lia|done].
  - rewrite lookup_app_r by lia. rewrite Htake.
    destruct (decide (j - off < length vals)) as [Hin|Hout].
    + rewrite lookup_app_l by done. case_decide; [done|lia].
    + rewrite lookup_app_r by lia. rewrite lookup_drop.
      case_decide; [lia|]. f_equal. lia.
Qed.

Lemma length_chunk (c : nat) (units : list Engine.GenomicUnit) (k : nat) :
  length (Engine.chunk c units k) = c `min` (length units - k * c).
Proof. unfold Engine.chunk. by rewrite length_take, length_drop. Qed.

Lemma lookup_chunk (c : nat) (units : list Engine.GenomicUnit) (k r : nat) :
  r < c → Engine.chunk c units k !! r = units !! (k * c + r).
Proof.
  intros Hr. unfold Engine.chunk.
  by rewrite lookup_take_lt, lookup_drop.
Qed.

Lemma decide_done_snoc {A} (x y : A) (done : list Engine.Task)
    (t p : Engine.Task) :
  p ≠ t →
  (if decide (p ∈ done ++ [t]) then x else y)
  = (if decide (p ∈ done) then x else y).
Proof.
  intros Hne. destruct (decide (p ∈ done)) as [Hin|Hout].
  - rewrite decide_True; [done|]. apply elem_of_app. by left.
  - rewrite decide_False; [done|].
    intros [?|?%list_elem_of_singleton]%elem_of_app; done.
Qed.

(** The merge invariant: whatever tasks have completed so far, and in
    whatever order, the array of file [i] holds at index [j] the score
    of unit [j] if the chunk of [j] has completed for [i], and the
    initial 0 otherwise. *)
Lemma merged_arrays_inv (files : list string)
    (units : list Engine.GenomicUnit) (c : nat) (done : list Engine.Task)
    (i : nat) (f : string) :
  c ≠ 0 →
  files !! i = Some f →
  ∃ arr,
    foldl (Engine.merge c)
          (replicate (length files) (replicate (length units) zero))
          (work files units c <$> done) !! i = Some arr ∧
    length arr = length units ∧
    ∀ j u, units !! j = Some u →
      arr !! j = Some (if decide ((j `div` c, i) ∈ done)
                       then score_unit f u else zero).
Proof.
  intros Hc Hf. induction done as [|t done IH] using rev_ind.
  - exists (replicate (length units) zero). split_and!.
    + simpl. apply lookup_replicate_2. by eapply lookup_lt_Some.
    + by rewrite length_replicate.
    + intros j u Hu. rewrite lookup_replicate_2 by (by eapply lookup_lt_Some).
      rewrite decide_False; [done|]. apply not_elem_of_nil.
  - destruct IH as (arr & Harr & Hlen & Hget).
    rewrite fmap_app. destruct t as [k i'].
    change (work files units c <$> [(k, i')]) with [work files units c (k, i')].
    rewrite foldl_snoc.
    unfold Engine.merge at 1.
    change ((work files units c (k, i')).1.1) with k.
    change ((work files units c (k, i')).1.2) with i'.
    change ((work files units c (k, i')).2)
      with (match files !! i' with
            | Some f => score f (Engine.chunk c units k)
            | None => []
            end).
    destruct (decide (i' = i)) as [->|Hne].
    + rewrite list_lookup_alter_eq, Harr, Hf. simpl.
      set (vals := score f (Engine.chunk c units k)).
      assert (length vals = c `min` (length units - k * c)) as Hvals
        by (unfold vals, Engine.score; by rewrite length_fmap, length_chunk).
      destruct (decide (k * c ≤ length units)) as [Hk|Hk].
      * eexists. split; [done|]. split; [rewrite length_write_range; lia|].
        intros j u Hu. pose proof (lookup_lt_Some _ _ _ Hu) as Hj.
        rewrite lookup_write_range by lia.
        pose proof (div_eq_iff j c k Hc) as Hdiv.
        case_decide as Hrange.
        -- unfold vals, Engine.score.
           rewrite list_lookup_fmap, lookup_chunk by lia.
           replace (k * c + (j - k * c)) with j by lia. rewrite Hu. simpl.
           rewrite decide_True; [done|].
           apply elem_of_app. right. apply list_elem_of_singleton.
           f_equal. apply Hdiv. lia.
        -- rewrite (Hget j u Hu).
           assert (j `div` c ≠ k) as Hnk by (intros Heq%Hdiv; lia).
           by rewrite decide_done_snoc by congruence.
      * assert (vals = []) as -> by (apply nil_length_inv; lia).
        rewrite write_range_nil. exists arr. split_and!; [done..|].
        intros j u Hu. pose proof (lookup_lt_Some _ _ _ Hu) as Hj.
        rewrite (Hget j u Hu).
        assert (j `div` c ≠ k) as Hnk by (intros Heq%(div_eq_iff j c k Hc); lia).
        by rewrite decide_done_snoc by congruence.
    + rewrite list_lookup_alter_ne by done. exists arr. split_and!; [done..|].
      intros j u Hu. rewrite (Hget j u Hu).
      by rewrite decide_done_snoc by congruence.
Qed.

Lemma length_merged_arrays (c : nat) (arrays : list (list V))
    (rs : list (nat * nat * list V)) :
  length (foldl (Engine.merge c) arrays rs) = length arrays.
Proof.
  revert arrays. induction rs as [|r rs IH]; intros arrays; simpl; [done|].
  rewrite IH. apply length_alter.
Qed.

(** Every completion order that returns each submitted task leaves, for
    each file, exactly its score vector. *)
Lemma merged_arrays_complete (files : list string)
    (units : list Engine.GenomicUnit) (c : nat) (done : list Engine.Task) :
  c ≠ 0 →
  done ≡ₚ Engine.tasks c (length units) (length files) →
  foldl (Engine.merge c)
        (replicate (length files) (replicate (length units) zero))
        (work files units c <$> done)
  = (λ f, score f units) <$> files.
Proof.
  intros Hc Hperm. apply list_eq. intros i.
  rewrite list_lookup_fmap.
  destruct (files !! i) as [f|] eqn:Hf; simpl.
  - destruct (merged_arrays_inv files units c done i f Hc Hf)
      as (arr & -> & Hlen & Hget).
    f_equal. apply list_eq. intros j. unfold Engine.score.
    rewrite list_lookup_fmap.
    destruct (units !! j) as [u|] eqn:Hu; simpl.
    + rewrite (Hget j u Hu). rewrite decide_True; [done|].
      rewrite Hperm. apply elem_of_tasks. split.
      * apply div_lt_n_chunks; [done|]. by eapply lookup_lt_Some.
      * by eapply lookup_lt_Some.
    + apply lookup_ge_None. rewrite Hlen. by apply lookup_ge_None.
  - apply lookup_ge_None. rewrite length_merged_arrays, length_replicate.
    by apply lookup_ge_None.
Qed.

Local Abbreviation keep := (kept zero averageInRange).
Local Abbreviation retained := (retained_units zero averageInRange).
Local Abbreviation matrix_of := (score_matrix zero averageInRange).
Local Abbreviation vectors_of := (score_vectors zero averageInRange).

Lemma forallb_fmap {A B} (P : B → bool) (g : A → B) (l : list A) :
  forallb P (g <$> l) = forallb (λ x, P (g x)) l.
Proof.
  induction l as [|x l IH]; [done|].
  rewrite fmap_cons. cbn [forallb]. by rewrite IH.
Qed.

Lemma forallb_pointwise {A} (P Q : A → bool) (l : list A) :
  (∀ x, P x = Q x) → forallb P l = forallb Q l.
Proof.
  intros HPQ. induction l as [|x l IH]; [done|].
  cbn [forallb]. by rewrite HPQ, IH.
Qed.

Lemma keep_mask_scores (files : list string) (units : list Engine.GenomicUnit) :
  Engine.keep_mask zero (length units) ((λ f, score f units) <$> files)
  = keep files <$> units.
Proof.
  unfold Engine.keep_mask. apply list_eq. intros j.
  rewrite !list_lookup_fmap.
  destruct (units !! j) as [u|] eqn:Hu; simpl.
  - rewrite lookup_seq_lt by (by eapply lookup_lt_Some). simpl.
    f_equal. unfold kept. f_equal.
    rewrite forallb_fmap. apply forallb_pointwise. intros f.
    unfold Engine.score. by rewrite list_lookup_fmap, Hu.
  - rewrite lookup_seq_ge; [done|]. by apply lookup_ge_None.
Qed.

Lemma retain_fmap {A B} (p : A → bool) (h : A → B) (l : list A) :
  Engine.retain (p <$> l) (h <$> l) = h <$> filter (λ x, p x = true) l.
Proof.
  unfold Engine.retain. induction l as [|x l IH]; [done|].
  rewrite !fmap_cons. cbn [zip zip_with].
  rewrite !filter_cons. cbn [fst].
  destruct (decide (p x = true)); rewrite ?fmap_cons, IH; done.
Qed.

Lemma rows_of_columns {A} (g : string → A → V) (files : list string)
    (us : list A) :
  Engine.rows_of zero (length us) ((λ f, g f <$> us) <$> files)
  = (λ u, (λ f, g f u) <$> files) <$> us.
Proof.
  unfold Engine.rows_of. apply list_eq. intros j.
  rewrite !list_lookup_fmap.
  destruct (us !! j) as [u|] eqn:Hu; simpl.
  - rewrite lookup_seq_lt by (by eapply lookup_lt_Some). simpl. f_equal.
    rewrite <-list_fmap_compose. apply list_fmap_ext. intros _ f _. simpl.
    by rewrite list_lookup_fmap, Hu.
  - rewrite lookup_seq_ge; [done|]. by apply lookup_ge_None.
Qed.

(** What the aggregator and the assembler hand over does not depend on
    the chunking nor on the order in which the tasks complete. *)
Lemma assembled_matrix (files : list string)
    (units : list Engine.GenomicUnit) (c : nat) (done : list Engine.Task) :
  c ≠ 0 →
  done ≡ₚ Engine.tasks c (length units) (length files) →
  let arrays := foldl (Engine.merge c)
                  (replicate (length files) (replicate (length units) zero))
                  (work files units c <$> done) in
  let mask := Engine.keep_mask zero (length units) arrays in
  Engine.retain mask units = retained files units ∧
  Engine.rows_of zero (length (Engine.retain mask units))
                 (Engine.retain mask <$> arrays)
  = matrix_of files units ∧
  Engine.retain mask <$> arrays = vectors_of files units.
Proof.
  intros Hc Hperm. simpl.
  rewrite merged_arrays_complete by done.
  rewrite keep_mask_scores.
  assert (Engine.retain (keep files <$> units) units = retained files units)
    as Hret.
  { rewrite <-(list_fmap_id units) at 2. by rewrite retain_fmap, list_fmap_id. }
  assert (Engine.retain (keep files <$> units) <$> ((λ f, score f units) <$> files)
          = vectors_of files units) as Hvec.
  { rewrite <-list_fmap_compose. apply list_fmap_ext.
    intros _ f _. simpl. unfold Engine.score. apply retain_fmap. }
  split; [done|]. split; [|done]. rewrite Hret, Hvec.
  apply (rows_of_columns score_unit).
Qed.

End EngineFacts.

(** ** The engine and its sequential reading *)

Section EngineOutcome.

Context {V : Type} `{!EqDecision V}.
Variable zero : V.
Variable readable : string → bool.
Variable averageInRange : string → string → Z → Z → Engine.Answer V.
Variable chromLengths : list (string * Z).
Variable regionList : string → list Engine.GenomicUnit.
Variable granularity : Z → nat → nat.
Variable completion : Z → list Engine.Task → list Engine.Task.
Variable format_score : V → string.

(** The pool returns every task submitted to it, once. *)
Hypothesis completion_perm : ∀ workers ts, completion workers ts ≡ₚ ts.

Lemma chunk_len_nonzero (workers : Z) (n : nat) :
  Engine.chunk_len granularity workers n ≠ 0%nat.
Proof. unfold Engine.chunk_len. lia. Qed.

Lemma getScorePerBin_sequential (c : ScoreCall) (fs : gmap string string) :
  (Engine.getScorePerBin zero readable averageInRange chromLengths regionList
                         granularity completion format_score c fs).1
  = sequential_engine zero readable averageInRange chromLengths regionList
                      format_score c fs.
Proof.
  unfold Engine.getScorePerBin, sequential_engine.
  destruct (Engine.plan _ _ _ _ _) as [e|units]; [done|].
  destruct (list_find _ _) as [[_ f]|]; [done|].
  unfold Engine.aggregate, Engine.assemble.
  destruct (assembled_matrix zero averageInRange (sc_bwFiles c) units
              (Engine.chunk_len granularity (sc_numberOfProcessors c) (length units))
              (completion (sc_numberOfProcessors c)
                 (Engine.tasks
                    (Engine.chunk_len granularity (sc_numberOfProcessors c)
                                      (length units))
                    (length units) (length (sc_bwFiles c)))))
    as (Hret & Hm & Hvec); [apply chunk_len_nonzero|apply completion_perm|].
  simpl in Hret, Hm, Hvec. simpl. rewrite Hm, Hvec, Hret. done.
Qed.

End EngineOutcome.


(** ** The planner's walk *)

Section PlannerFacts.

Lemma filter_all {A} (P : A → Prop) `{!∀ x, Decision (P x)} (l : list A) :
  Forall P l → filter P l = l.
Proof.
  induction 1 as [|x l Hx Hl IH]; [done|].
  by rewrite filter_cons_True, IH.
Qed.

Lemma start_below_length (k stride len : Z) :
  0 < stride → 0 ≤ k < (len + stride - 1) / stride → k * stride < len.
Proof.
  intros Hs [Hk0 Hk].
  pose proof (Z.mul_div_le (len + stride - 1) stride Hs). nia.
Qed.

(** With a positive bin size and a positive stride no unit is dropped:
    the bins of a chromosome start at 0, stride, 2 * stride, ... below
    its length. *)
Lemma planned_bins_walk (binSize stride : Z) (c : string) (len : Z) :
  0 < binSize → 0 < stride →
  Engine.bins_of_chrom binSize stride c len
  = (λ k, {| Engine.chrom := c; Engine.u_start := k * stride;
             Engine.u_end := Z.min (k * stride + binSize) len |})
      <$> seqZ 0 ((len + stride - 1) / stride).
Proof.
  intros Hb Hs. unfold Engine.bins_of_chrom.
  destruct (Z.leb_spec stride 0) as [?|_]; [lia|].
  apply filter_all, Forall_fmap, Forall_forall.
  intros k Hk%elem_of_seqZ. simpl.
  pose proof (start_below_length k stride len Hs) as Hlt. lia.
Qed.

(** Two consecutive bins of a chromosome start one stride apart; when the
    stride is the bin size plus a distance that is not negative, the
    first ends a whole bin after its start and the distance lies between
    its end and the start of the next. *)
Lemma consecutive_bins (binSize distance : Z) (c : string) (len : Z)
    (i : nat) (u u' : Engine.GenomicUnit) :
  0 < binSize → 0 ≤ distance →
  Engine.bins_of_chrom binSize (binSize + distance) c len !! i = Some u →
  Engine.bins_of_chrom binSize (binSize + distance) c len !! S i = Some u' →
  Engine.u_start u' - Engine.u_start u = binSize + distance ∧
  Engine.u_end u = Engine.u_start u + binSize ∧
  Engine.u_start u' - Engine.u_end u = distance.
Proof.
  intros Hb Hd. rewrite planned_bins_walk by lia.
  rewrite !list_lookup_fmap.
  intros (k & Hk%lookup_seqZ & ->)%fmap_Some (k' & Hk'%lookup_seqZ & ->)%fmap_Some.
  simpl. destruct Hk as [-> _], Hk' as [-> Hlt].
  pose proof (start_below_length (0 + Z.of_nat (S i)) (binSize + distance) len) as Hs.
  lia.
Qed.

End PlannerFacts.

(** ** The claims about [process_args] and [main] *)

Section ProgramClaims.

Context {V : Type}.
Variable getScorePerBin :
  ScoreCall → gmap string string → (Exn + Matrix (V:=V)) * gmap string string * list Query.
Variable traceback : Exn → string.

Lemma has_char_join (c : ascii) (sep : string) (ls : list string) :
  has_char c sep = false →
  Forall (λ l, has_char c l = false) ls →
  has_char c (join sep ls) = false.
Proof.
  intros Hsep Hls. unfold join.
  induction Hls as [|l ls Hl Hls IH]; [done|].
  destruct ls as [|l' ls]; [done|].
  change (String.concat sep (l :: l' :: ls))
    with (l +:+ sep +:+ String.concat sep (l' :: ls)).
  by rewrite !has_char_app, Hl, Hsep, IH.
Qed.

Lemma raw_header_line (ls : list string) : raw_header ls = header_line ls +:+ NL.
Proof.
  unfold raw_header, header_line. cbv zeta.
  by rewrite !str_app_assoc.
Qed.

Lemma header_line_one_line (ls : list string) :
  Forall (λ l, has_char "010" l = false) ls →
  has_char "010" (header_line ls) = false.
Proof.
  intros Hls. unfold header_line.
  rewrite !has_char_app, has_char_join; [done|done|done].
Qed.

Lemma calls_after_run (args : Args) (w : World (V:=V)) :
  labels_accepted args →
  (2 ≤ length (bwfiles args))%nat →
  w_calls (run getScorePerBin traceback args w).2 = w_calls w ++ [engine_call args].
Proof.
  intros Hacc Hn. rewrite run_spec.
  assert (truthy (labels args)
          && negb (length (bwfiles args) =? length (default [] (labels args)))%nat
          = false) as ->.
  { destruct Hacc as [-> | ->]; [done|].
    rewrite Nat.eqb_refl. apply andb_false_r. }
  destruct (Nat.ltb_spec (length (bwfiles args)) 2) as [?|_]; [lia|].
  destruct (getScorePerBin (engine_call args) (w_files w))
    as [[[e|m] fs] qs] eqn:He.
  - by rewrite (after_engine_eq _ _ _ _ _ _ He).
  - destruct (shape0 m <? 2)%nat.
    + by rewrite (after_count_eq _ _ _ _ _ _ _ He).
    + cbv zeta. rewrite (after_save_eq _ _ _ _ _ _ _ He).
      destruct (outRawCounts args) as [name|]; [|done].
      by destruct (fs !! name).
Qed.

(** C4: when no labels are supplied, [process_args] returns normally with
    exactly one label per file, in file order; the label of a file is
    its [basename], and for a URL-style source the last piece of
    [f.split("/")]; in both cases it is the substring after the final
    ['/']. *)
Theorem C4_derived_labels (args : Args) (w : World (V:=V))
    (Hnone : truthy (labels args) = false) :
  ∃ ls, process_args args w = (Ret (set_labels args (Some ls)), w) ∧
        length ls = length (bwfiles args) ∧
        ∀ i f, bwfiles args !! i = Some f →
          ∃ lbl, ls !! i = Some lbl ∧
                 after_final_slash f lbl ∧
                 (url_style f = true → item_last (split SLASH f) = Some lbl) ∧
                 (url_style f = false → lbl = basename f).
Proof.
  exists (derived_label <$> bwfiles args). split_and!.
  - rewrite process_args_accepted by (by left).
    unfold final_labels. by rewrite Hnone.
  - by rewrite length_fmap.
  - intros i f Hf. exists (derived_label f). split_and!.
    + by rewrite list_lookup_fmap, Hf.
    + apply derived_label_after_final_slash.
    + intros Hurl. unfold derived_label. rewrite Hurl.
      by destruct (split_last_segment f) as (lbl & -> & _).
    + intros Hurl. unfold derived_label. by rewrite Hurl.
Qed.

(** C10: the step that adds the header returns normally and leaves in
    the raw file the header followed by exactly what the file held
    before; no other file, stream or saved container changes. *)
Theorem C10_header_keeps_rows (name : string) (ls : list string)
    (w : World (V:=V)) (content : string)
    (Hfile : w_files w !! name = Some content) :
  ∃ w', prepend_header name ls w = (Ret (), w') ∧
        w_files w' !! name = Some (raw_header ls +:+ content) ∧
        (∀ other, other ≠ name → w_files w' !! other = w_files w !! other) ∧
        w_stdout w' = w_stdout w ∧ w_stderr w' = w_stderr w ∧
        w_npz w' = w_npz w.
Proof.
  eexists. rewrite prepend_header_spec, Hfile. split; [done|]. simpl.
  split_and!; [apply lookup_insert_eq| |done..].
  intros other Hne. by apply lookup_insert_ne.
Qed.

(** C3, amended: when the engine returns fewer than two bins, the run
    ends by [exit] with a message (status 1, no exception), after the
    engine was called, and no container is saved; the message is a fixed
    text that does not hold the number of bins; that number is on the
    line that [main] writes to [stderr] just before, as on every run
    that gets there. *)
Theorem C3_too_few_bins_reported (args : Args) (w : World (V:=V))
    (m : Matrix (V:=V)) (fs : gmap string string) (qs : list Query)
    (Hacc : labels_accepted args)
    (Hn : (2 ≤ length (bwfiles args))%nat)
    (He : getScorePerBin (engine_call args) (w_files w) = (inr m, fs, qs))
    (Hm : (shape0 m < 2)%nat) :
  (main getScorePerBin args w).1 = SystemExit (ExitStr too_few_bins) ∧
  contains (format_int (Z.of_nat (shape0 m))) too_few_bins = false ∧
  (run getScorePerBin traceback args w).1 = 1 ∧
  w_stderr (run getScorePerBin traceback args w).2
    = (w_stderr w +:+ "Number of bins found: "
         +:+ format_int (Z.of_nat (shape0 m)) +:+ NL)
      +:+ too_few_bins +:+ NL ∧
  w_calls (run getScorePerBin traceback args w).2 = w_calls w ++ [engine_call args] ∧
  w_npz (run getScorePerBin traceback args w).2 = w_npz w.
Proof.
  split; [by rewrite (main_too_few_bins _ _ _ _ _ _ Hacc Hn He Hm)|].
  split.
  { destruct m as [|r [|r' m]]; [reflexivity|reflexivity|simpl in Hm; lia]. }
  unfold run. rewrite (main_too_few_bins _ _ _ _ _ _ Hacc Hn He Hm).
  rewrite (after_count_eq _ _ _ _ _ _ _ He). done.
Qed.

(** C6: a run that reaches the engine calls it once, with the bin size
    of the arguments and with the step size [binSize +
    distanceBetweenBins]: the step exceeds the bin by the configured
    distance, which leaves a gap when positive and none when 0. *)
Theorem C6_step_size (args : Args) (w : World (V:=V))
    (Hacc : labels_accepted args)
    (Hn : (2 ≤ length (bwfiles args))%nat) :
  ∃ c, w_calls (run getScorePerBin traceback args w).2 = w_calls w ++ [c] ∧
       sc_binSize c = binSize args ∧
       sc_stepSize c = binSize args + distanceBetweenBins args ∧
       sc_stepSize c - sc_binSize c = distanceBetweenBins args ∧
       (0 < distanceBetweenBins args → sc_binSize c < sc_stepSize c) ∧
       (distanceBetweenBins args = 0 → sc_stepSize c = sc_binSize c).
Proof.
  exists (engine_call args). split; [by apply calls_after_run|].
  simpl. split_and!; [done|done|lia|lia|lia].
Qed.

(** C9, amended: with fewer than two files and labels that pass the
    check of [process_args], the run prints the request for at least two
    files and exits with status 1; the engine is not called and no file
    changes. *)
Theorem C9_too_few_files (args : Args) (w : World (V:=V))
    (Hacc : labels_accepted args)
    (Hfew : (length (bwfiles args) < 2)%nat) :
  (run getScorePerBin traceback args w).1 = 1 ∧
  w_stdout (run getScorePerBin traceback args w).2
    = w_stdout w +:+ "Please input at least two bigWig (.bw) files to compare" +:+ NL ∧
  w_calls (run getScorePerBin traceback args w).2 = w_calls w ∧
  w_queries (run getScorePerBin traceback args w).2 = w_queries w ∧
  w_files (run getScorePerBin traceback args w).2 = w_files w ∧
  w_npz (run getScorePerBin traceback args w).2 = w_npz w.
Proof.
  unfold run. by rewrite main_few_files.
Qed.

(** C5, amended: when raw output is requested and the run gets past the
    guard on the number of bins, the run ends with status 0 and the raw
    file holds the header followed by what the engine left in it; the
    header is built after the engine has returned, and its line is
    [#'chr'], ['start'], ['end'] and the labels, each label in single
    quotes, separated by tabs. *)
Theorem C5_quoted_header_after_scoring (args : Args) (w : World (V:=V))
    (m : Matrix (V:=V)) (fs : gmap string string) (qs : list Query)
    (name rows : string)
    (Hacc : labels_accepted args)
    (Hn : (2 ≤ length (bwfiles args))%nat)
    (Hraw : outRawCounts args = Some name)
    (He : getScorePerBin (engine_call args) (w_files w) = (inr m, fs, qs))
    (Hm : (2 ≤ shape0 m)%nat)
    (Hrows : fs !! name = Some rows)
    (Hline : Forall (λ l, has_char "010" l = false) (final_labels args)) :
  (run getScorePerBin traceback args w).1 = 0 ∧
  w_calls (run getScorePerBin traceback args w).2 = w_calls w ++ [engine_call args] ∧
  w_files (run getScorePerBin traceback args w).2 !! name
    = Some (raw_header (final_labels args) +:+ rows) ∧
  first_line (raw_header (final_labels args) +:+ rows)
    = "#'chr'" +:+ TAB +:+ "'start'" +:+ TAB +:+ "'end'" +:+ TAB
      +:+ "'" +:+ join ("'" +:+ TAB +:+ "'") (final_labels args) +:+ "'".
Proof.
  split_and!.
  - rewrite run_spec.
    assert (truthy (labels args)
            && negb (length (bwfiles args) =? length (default [] (labels args)))%nat
            = false) as ->.
    { destruct Hacc as [-> | ->]; [done|].
      rewrite Nat.eqb_refl. apply andb_false_r. }
    destruct (Nat.ltb_spec (length (bwfiles args)) 2) as [?|_]; [lia|].
    rewrite He.
    destruct (Nat.ltb_spec (shape0 m) 2) as [?|_]; [lia|].
    cbv zeta. by rewrite Hraw, Hrows.
  - by apply calls_after_run.
  - rewrite run_spec.
    assert (truthy (labels args)
            && negb (length (bwfiles args) =? length (default [] (labels args)))%nat
            = false) as ->.
    { destruct Hacc as [-> | ->]; [done|].
      rewrite Nat.eqb_refl. apply andb_false_r. }
    destruct (Nat.ltb_spec (length (bwfiles args)) 2) as [?|_]; [lia|].
    rewrite He.
    destruct (Nat.ltb_spec (shape0 m) 2) as [?|_]; [lia|].
    cbv zeta. rewrite Hraw, Hrows. simpl. apply lookup_insert_eq.
  - rewrite raw_header_line, str_app_assoc.
    rewrite first_line_app_nl by (by apply header_line_one_line).
    done.
Qed.

End ProgramClaims.

(** ** The claims that rest on the scoring engine *)

Section RunCongruence.

Context {V : Type}.
Variable traceback : Exn → string.

(** Two runs from the same world see the same thing when they agree on
    the labels, the files and the outputs, and their engines return the
    same array and leave the same files. *)
Lemma run_observable_congr
    (e1 e2 : ScoreCall → gmap string string
             → (Exn + Matrix (V:=V)) * gmap string string * list Query)
    (a1 a2 : Args) (w : World (V:=V)) :
  labels a1 = labels a2 →
  bwfiles a1 = bwfiles a2 →
  outFileName a1 = outFileName a2 →
  outRawCounts a1 = outRawCounts a2 →
  (e1 (engine_call a1) (w_files w)).1 = (e2 (engine_call a2) (w_files w)).1 →
  (run e1 traceback a1 w).1 = (run e2 traceback a2 w).1 ∧
  observable (run e1 traceback a1 w).2 = observable (run e2 traceback a2 w).2.
Proof.
  intros Hl Hb Ho Hr Heng.
  assert (final_labels a1 = final_labels a2) as Hfl
    by (unfold final_labels; by rewrite Hl, Hb).
  rewrite !run_spec. rewrite Hl, Hb.
  destruct (truthy (labels a2) && _); [done|].
  destruct (length (bwfiles a2) <? 2)%nat; [done|].
  destruct (e1 (engine_call a1) (w_files w)) as [[r1 fs1] q1] eqn:He1.
  destruct (e2 (engine_call a2) (w_files w)) as [[r2 fs2] q2] eqn:He2.
  simpl in Heng. injection Heng as -> ->.
  destruct r2 as [e|m].
  - rewrite (after_engine_eq _ _ _ _ _ _ He1), (after_engine_eq _ _ _ _ _ _ He2).
    done.
  - destruct (shape0 m <? 2)%nat.
    + rewrite (after_count_eq _ _ _ _ _ _ _ He1), (after_count_eq _ _ _ _ _ _ _ He2).
      done.
    + cbv zeta.
      rewrite (after_save_eq _ _ _ _ _ _ _ He1), (after_save_eq _ _ _ _ _ _ _ He2).
      rewrite Hr, Ho, Hfl.
      destruct (outRawCounts a2) as [name|]; [|done].
      by destruct (fs2 !! name).
Qed.

End RunCongruence.

Section EngineClaims.

Context {V : Type} `{!EqDecision V}.
Variable zero : V.
Variable readable : string → bool.
Variable averageInRange : string → string → Z → Z → Engine.Answer V.
Variable chromLengths : list (string * Z).
Variable regionList : string → list Engine.GenomicUnit.
Variable granularity : Z → nat → nat.
Variable format_score : V → string.
Variable traceback : Exn → string.

Local Abbreviation engine :=
  (Engine.getScorePerBin zero readable averageInRange chromLengths regionList
                         granularity).

(** C7: two runs on the same inputs that differ only in the worker count,
    whose pools may return the tasks in different orders, end with the
    same exit status and leave the same saved containers, the same files
    and the same output streams. *)
Theorem C7_worker_count_determinism
    (completion1 completion2 : Z → list Engine.Task → list Engine.Task)
    (args : Args) (n1 n2 : Z) (w : World (V:=V))
    (Hpool1 : ∀ workers ts, completion1 workers ts ≡ₚ ts)
    (Hpool2 : ∀ workers ts, completion2 workers ts ≡ₚ ts) :
  let r1 := run (engine completion1 format_score) traceback (set_numberOfProcessors args n1) w in
  let r2 := run (engine completion2 format_score) traceback (set_numberOfProcessors args n2) w in
  r1.1 = r2.1 ∧
  w_npz r1.2 = w_npz r2.2 ∧
  w_files r1.2 = w_files r2.2 ∧
  w_stdout r1.2 = w_stdout r2.2 ∧
  w_stderr r1.2 = w_stderr r2.2.
Proof.
  intros r1 r2.
  destruct (run_observable_congr traceback
              (engine completion1 format_score) (engine completion2 format_score)
              (set_numberOfProcessors args n1) (set_numberOfProcessors args n2) w)
    as [Hstatus Hobs]; [done..| |].
  { rewrite !getScorePerBin_sequential by done. done. }
  unfold observable in Hobs. injection Hobs as Hout Herr Hfiles Hnpz.
  done.
Qed.


Lemma labels_accepted_of_check (args : Args) :
  truthy (labels args)
  && negb (length (bwfiles args) =? length (default [] (labels args)))%nat = false →
  labels_accepted args.
Proof.
  unfold labels_accepted. destruct (truthy (labels args)); [|by left].
  destruct (Nat.eqb_spec (length (bwfiles args))
                         (length (default [] (labels args)))); [by right|done].
Qed.

(** C1: in every run that saves a container, row [i] of the saved
    matrix is the score vector of input file [i] over the retained units
    of the plan, and label [i] goes with file [i]: the labels saved with
    the matrix are those given, or the labels derived from the files in
    the order of the files, one per file. *)
Theorem C1_rows_follow_files
    (completion : Z → list Engine.Task → list Engine.Task)
    (args : Args) (w : World (V:=V)) (npz : Npz (V:=V))
    (Hpool : ∀ workers ts, completion workers ts ≡ₚ ts)
    (Hfresh : w_npz w !! outFileName args = None)
    (Hsaved : w_npz (run (engine completion format_score) traceback args w).2
                !! outFileName args = Some npz) :
  ∃ units,
    Engine.plan chromLengths (binSize args)
                (binSize args + distanceBetweenBins args)
                (default [] (chromosomesToSkip args))
                (regionList <$> sc_bedFile (engine_call args)) = inr units ∧
    rows_are_files (npz_matrix npz) (bwfiles args)
      (λ f, Engine.score_unit zero averageInRange f
              <$> retained_units zero averageInRange (bwfiles args) units) ∧
    npz_labels npz = Some (final_labels args) ∧
    length (final_labels args) = length (bwfiles args) ∧
    (truthy (labels args) = true → labels args = Some (final_labels args)) ∧
    (truthy (labels args) = false →
     ∀ i f, bwfiles args !! i = Some f →
            final_labels args !! i = Some (derived_label f)).
Proof.
  rewrite run_spec in Hsaved.
  destruct (truthy (labels args) && _) eqn:Hcheck;
    [simpl in Hsaved; congruence|].
  apply labels_accepted_of_check in Hcheck as Hacc.
  destruct (length (bwfiles args) <? 2)%nat; [simpl in Hsaved; congruence|].
  pose proof (getScorePerBin_sequential zero readable averageInRange chromLengths
                regionList granularity completion format_score Hpool
                (engine_call args) (w_files w)) as Hseq.
  destruct (engine completion format_score (engine_call args) (w_files w))
    as [[r fs] qs] eqn:He.
  simpl in Hseq. destruct r as [e|m].
  { rewrite (after_engine_eq _ _ _ _ _ _ He) in Hsaved. simpl in Hsaved. congruence. }
  destruct (shape0 m <? 2)%nat.
  { rewrite (after_count_eq _ _ _ _ _ _ _ He) in Hsaved. simpl in Hsaved. congruence. }
  cbv zeta in Hsaved. rewrite (after_save_eq _ _ _ _ _ _ _ He) in Hsaved.
  assert (npz = {| npz_matrix := m; npz_labels := Some (final_labels args) |})
    as ->.
  { destruct (outRawCounts args) as [name|];
      [destruct (fs !! name)|]; simpl in Hsaved;
      rewrite lookup_insert_eq in Hsaved; congruence. }
  unfold sequential_engine in Hseq. simpl in Hseq.
  destruct (Engine.plan _ _ _ _ _) as [e|units] eqn:Hplan; [congruence|].
  destruct (list_find _ _) as [[_ f]|]; [congruence|].
  injection Hseq as Hm _.
  exists units. simpl. split_and!.
  - done.
  - rewrite Hm. unfold rows_are_files, score_vectors. split.
    + by rewrite length_fmap.
    + intros i f' Hf'. by rewrite list_lookup_fmap, Hf'.
  - done.
  - by apply length_final_labels.
  - intros Ht. unfold final_labels. rewrite Ht.
    by destruct (labels args).
  - intros Ht i f' Hf'. unfold final_labels. rewrite Ht.
    by rewrite list_lookup_fmap, Hf'.
Qed.

End EngineClaims.

(** ** The claims on the small genome *)

Section Examples.

Local Open Scope nat_scope.

Lemma in_order_perm (workers : Z) (ts : list Engine.Task) :
  Demo.in_order workers ts ≡ₚ ts.
Proof. reflexivity. Qed.

Lemma last_first_perm (workers : Z) (ts : list Engine.Task) :
  Demo.last_first workers ts ≡ₚ ts.
Proof. unfold Demo.last_first. symmetry. apply Permutation_rev. Qed.

(** The two pools of the example do return the tasks in different orders. *)
Example pools_differ :
  w_queries (run (Demo.engine Demo.in_order) Demo.traceback Demo.args_bins Demo.world).2
  ≠ w_queries (run (Demo.engine Demo.last_first) Demo.traceback
                   (set_numberOfProcessors Demo.args_bins 4) Demo.world).2.
Proof. vm_compute. discriminate. Qed.

(** Scenarios A and B of the planner. *)
Example scenario_A :
  Engine.bins_of_chrom 10000 (10000 + 0) "chr1" 30000
  = [ {| Engine.chrom := "chr1"; Engine.u_start := 0; Engine.u_end := 10000 |};
      {| Engine.chrom := "chr1"; Engine.u_start := 10000; Engine.u_end := 20000 |};
      {| Engine.chrom := "chr1"; Engine.u_start := 20000; Engine.u_end := 30000 |} ].
Proof. reflexivity. Qed.

Example scenario_B :
  Engine.bins_of_chrom 10000 (10000 + 5000) "chr1" 30000
  = [ {| Engine.chrom := "chr1"; Engine.u_start := 0; Engine.u_end := 10000 |};
      {| Engine.chrom := "chr1"; Engine.u_start := 15000; Engine.u_end := 25000 |} ].
Proof. reflexivity. Qed.

Lemma C1_rows_follow_files_witness :
  (∀ workers ts, Demo.last_first workers ts ≡ₚ ts) ∧
  w_npz Demo.world !! outFileName Demo.args_bins = None ∧
  w_npz (run (Demo.engine Demo.last_first) Demo.traceback Demo.args_bins
             Demo.world).2
    !! outFileName Demo.args_bins
  = Some {| npz_matrix := [[1; 2; 3]; [10; 20; 30]]%Z;
            npz_labels := Some ["a.bw"; "b.bw"] |} ∧
  ∃ units,
    Engine.plan [("chr1", 30000%Z)] (binSize Demo.args_bins)
                (binSize Demo.args_bins + distanceBetweenBins Demo.args_bins)%Z
                (default [] (chromosomesToSkip Demo.args_bins))
                (Demo.regions <$> sc_bedFile (engine_call Demo.args_bins))
    = inr units ∧
    rows_are_files [[1; 2; 3]; [10; 20; 30]]%Z (bwfiles Demo.args_bins)
      (λ f, Engine.score_unit 0%Z Demo.reader f
              <$> retained_units 0%Z Demo.reader (bwfiles Demo.args_bins) units) ∧
    Some ["a.bw"; "b.bw"] = Some (final_labels Demo.args_bins) ∧
    length (final_labels Demo.args_bins) = length (bwfiles Demo.args_bins) ∧
    (truthy (labels Demo.args_bins) = true →
     labels Demo.args_bins = Some (final_labels Demo.args_bins)) ∧
    (truthy (labels Demo.args_bins) = false →
     ∀ i f, bwfiles Demo.args_bins !! i = Some f →
            final_labels Demo.args_bins !! i = Some (derived_label f)).
Proof.
  split; [exact last_first_perm|].
  split; [reflexivity|].
  split; [vm_compute; reflexivity|].
  apply (C1_rows_follow_files 0%Z (λ _, true) Demo.reader [("chr1", 30000%Z)]
           Demo.regions (λ workers _, Z.to_nat workers) pretty Demo.traceback
           Demo.last_first Demo.args_bins Demo.world
           {| npz_matrix := [[1; 2; 3]; [10; 20; 30]]%Z;
              npz_labels := Some ["a.bw"; "b.bw"] |}).
  - exact last_first_perm.
  - reflexivity.
  - vm_compute. reflexivity.
Defined.

(** The rows of the saved matrix of the example are the vectors of the
    two files over the three bins. *)
Example saved_rows_of_example :
  Engine.score 0%Z Demo.reader "a.bw"
    (Engine.bins_of_chrom 10000 10000 "chr1" 30000) = [1; 2; 3]%Z ∧
  Engine.score 0%Z Demo.reader "b.bw"
    (Engine.bins_of_chrom 10000 10000 "chr1" 30000) = [10; 20; 30]%Z.
Proof. split; vm_compute; reflexivity. Qed.

(** C2: at two files and one label the process prints the message and
    ends with exit status 0, where the claim asks for a status that is
    not 0; the engine is not called. *)
Theorem C2_label_mismatch_exits_zero :
  truthy (labels Demo.args_mismatch) = true ∧
  length (bwfiles Demo.args_mismatch) = 2 ∧
  length (default [] (labels Demo.args_mismatch)) = 1 ∧
  (run (Demo.engine Demo.in_order) Demo.traceback Demo.args_mismatch Demo.world).1 = 0%Z ∧
  w_stdout (run (Demo.engine Demo.in_order) Demo.traceback Demo.args_mismatch Demo.world).2
    = "The number of labels does not match the number of bigWig files." +:+ NL ∧
  w_calls (run (Demo.engine Demo.in_order) Demo.traceback Demo.args_mismatch Demo.world).2 = [].
Proof. vm_compute. done. Qed.

(** C3 as stated fails: on a run that finds one bin, the message of the
    error is the fixed text, and the count 1 is not in it. *)
Lemma C3_message_has_no_count :
  labels_accepted Demo.args_plain ∧
  2 ≤ length (bwfiles Demo.args_plain) ∧
  Demo.engine_one_bin (engine_call Demo.args_plain) (w_files Demo.world)
    = (inr [[1; 10]]%Z, w_files Demo.world, []) ∧
  shape0 [[1; 10]]%Z = 1 ∧
  (main Demo.engine_one_bin Demo.args_plain Demo.world).1
    = SystemExit (ExitStr too_few_bins) ∧
  contains (format_int 1) too_few_bins = false ∧
  contains (format_int 1)
           (w_stderr (run Demo.engine_one_bin Demo.traceback Demo.args_plain
                          Demo.world).2) = true.
Proof.
  split; [left; reflexivity|]. split; [simpl; lia|].
  split; [reflexivity|]. split; [reflexivity|].
  split; [vm_compute; reflexivity|]. split; vm_compute; reflexivity.
Qed.

Lemma C3_too_few_bins_reported_witness :
  labels_accepted Demo.args_plain ∧
  2 ≤ length (bwfiles Demo.args_plain) ∧
  Demo.engine_one_bin (engine_call Demo.args_plain) (w_files Demo.world)
    = (inr [[1; 10]]%Z, w_files Demo.world, []) ∧
  shape0 [[1; 10]]%Z < 2 ∧
  (main Demo.engine_one_bin Demo.args_plain Demo.world).1
    = SystemExit (ExitStr too_few_bins) ∧
  contains (format_int (Z.of_nat (shape0 [[1; 10]]%Z))) too_few_bins = false ∧
  (run Demo.engine_one_bin Demo.traceback Demo.args_plain Demo.world).1 = 1%Z ∧
  w_stderr (run Demo.engine_one_bin Demo.traceback Demo.args_plain Demo.world).2
    = (w_stderr Demo.world +:+ "Number of bins found: "
         +:+ format_int (Z.of_nat (shape0 [[1; 10]]%Z)) +:+ NL)
      +:+ too_few_bins +:+ NL ∧
  w_calls (run Demo.engine_one_bin Demo.traceback Demo.args_plain Demo.world).2
    = w_calls Demo.world ++ [engine_call Demo.args_plain] ∧
  w_npz (run Demo.engine_one_bin Demo.traceback Demo.args_plain Demo.world).2
    = w_npz Demo.world.
Proof.
  assert (labels_accepted Demo.args_plain) as Hacc by (left; reflexivity).
  assert (2 ≤ length (bwfiles Demo.args_plain)) as Hn by (simpl; lia).
  assert (Demo.engine_one_bin (engine_call Demo.args_plain) (w_files Demo.world)
          = (inr [[1; 10]]%Z, w_files Demo.world, [])) as He by reflexivity.
  assert (shape0 [[1; 10]]%Z < 2) as Hm by (simpl; lia).
  split; [exact Hacc|]. split; [exact Hn|]. split; [exact He|]. split; [exact Hm|].
  exact (C3_too_few_bins_reported Demo.engine_one_bin Demo.traceback Demo.args_plain
           Demo.world _ _ _ Hacc Hn He Hm).
Defined.

Lemma C4_derived_labels_witness :
  truthy (labels Demo.args_url) = false ∧
  ∃ ls, process_args Demo.args_url Demo.world
        = (Ret (set_labels Demo.args_url (Some ls)), Demo.world) ∧
        length ls = length (bwfiles Demo.args_url) ∧
        ∀ i f, bwfiles Demo.args_url !! i = Some f →
          ∃ lbl, ls !! i = Some lbl ∧
                 after_final_slash f lbl ∧
                 (url_style f = true → item_last (split SLASH f) = Some lbl) ∧
                 (url_style f = false → lbl = basename f).
Proof.
  split; [reflexivity|].
  exact (C4_derived_labels Demo.args_url Demo.world eq_refl).
Defined.

(** The labels derived in the example. *)
Example derived_labels_url :
  final_labels Demo.args_url = ["a.bw"; "b.bw"].
Proof. reflexivity. Qed.

(** C5 as stated fails: the first line of the raw file is the header the
    program builds, with [chr] for the first column and every name in
    single quotes, and not the line of the specification. *)
Lemma C5_header_is_quoted :
  outRawCounts Demo.args_bins = Some "raw.tab" ∧
  first_line <$> w_files (run (Demo.engine Demo.in_order) Demo.traceback Demo.args_bins
                              Demo.world).2 !! "raw.tab"
  = Some ("#'chr'" +:+ TAB +:+ "'start'" +:+ TAB +:+ "'end'" +:+ TAB
          +:+ "'a.bw'" +:+ TAB +:+ "'b.bw'") ∧
  first_line <$> w_files (run (Demo.engine Demo.in_order) Demo.traceback Demo.args_bins
                              Demo.world).2 !! "raw.tab"
  ≠ Some (spec_header (final_labels Demo.args_bins)).
Proof.
  split; [reflexivity|]. split; [vm_compute; reflexivity|].
  vm_compute. discriminate.
Qed.

Lemma C5_quoted_header_after_scoring_witness :
  labels_accepted Demo.args_bins ∧
  2 ≤ length (bwfiles Demo.args_bins) ∧
  outRawCounts Demo.args_bins = Some "raw.tab" ∧
  Demo.engine Demo.in_order (engine_call Demo.args_bins) (w_files Demo.world)
    = (inr Demo.scored_matrix, Demo.scored.1.2, Demo.scored.2) ∧
  2 ≤ shape0 Demo.scored_matrix ∧
  Demo.scored.1.2 !! "raw.tab" = Some Demo.scored_rows ∧
  Forall (λ l, has_char "010" l = false) (final_labels Demo.args_bins) ∧
  (run (Demo.engine Demo.in_order) Demo.traceback Demo.args_bins Demo.world).1 = 0%Z ∧
  w_calls (run (Demo.engine Demo.in_order) Demo.traceback Demo.args_bins Demo.world).2
    = w_calls Demo.world ++ [engine_call Demo.args_bins] ∧
  w_files (run (Demo.engine Demo.in_order) Demo.traceback Demo.args_bins Demo.world).2 !! "raw.tab"
    = Some (raw_header (final_labels Demo.args_bins) +:+ Demo.scored_rows) ∧
  first_line (raw_header (final_labels Demo.args_bins) +:+ Demo.scored_rows)
    = "#'chr'" +:+ TAB +:+ "'start'" +:+ TAB +:+ "'end'" +:+ TAB
      +:+ "'" +:+ join ("'" +:+ TAB +:+ "'") (final_labels Demo.args_bins) +:+ "'".
Proof.
  assert (labels_accepted Demo.args_bins) as Hacc by (left; reflexivity).
  assert (2 ≤ length (bwfiles Demo.args_bins)) as Hn by (simpl; lia).
  assert (outRawCounts Demo.args_bins = Some "raw.tab") as Hraw by reflexivity.
  assert (Demo.engine Demo.in_order (engine_call Demo.args_bins) (w_files Demo.world)
          = (inr Demo.scored_matrix, Demo.scored.1.2, Demo.scored.2)) as He
    by (vm_compute; reflexivity).
  assert (2 ≤ shape0 Demo.scored_matrix) as Hm by (vm_compute; lia).
  assert (Demo.scored.1.2 !! "raw.tab" = Some Demo.scored_rows) as Hrows
    by (vm_compute; reflexivity).
  assert (Forall (λ l, has_char "010" l = false) (final_labels Demo.args_bins))
    as Hline by (repeat constructor).
  split; [exact Hacc|]. split; [exact Hn|]. split; [exact Hraw|].
  split; [exact He|]. split; [exact Hm|]. split; [exact Hrows|].
  split; [exact Hline|].
  exact (C5_quoted_header_after_scoring (Demo.engine Demo.in_order) Demo.traceback Demo.args_bins
           Demo.world _ _ _ _ _ Hacc Hn Hraw He Hm Hrows Hline).
Defined.

Lemma C6_step_size_witness :
  labels_accepted Demo.args_gap ∧
  2 ≤ length (bwfiles Demo.args_gap) ∧
  ∃ c, w_calls (run (Demo.engine Demo.in_order) Demo.traceback Demo.args_gap Demo.world).2
       = w_calls Demo.world ++ [c] ∧
       sc_binSize c = binSize Demo.args_gap ∧
       sc_stepSize c = (binSize Demo.args_gap + distanceBetweenBins Demo.args_gap)%Z ∧
       (sc_stepSize c - sc_binSize c)%Z = distanceBetweenBins Demo.args_gap ∧
       ((0 < distanceBetweenBins Demo.args_gap)%Z → (sc_binSize c < sc_stepSize c)%Z) ∧
       (distanceBetweenBins Demo.args_gap = 0%Z → sc_stepSize c = sc_binSize c).
Proof.
  assert (labels_accepted Demo.args_gap) as Hacc by (left; reflexivity).
  assert (2 ≤ length (bwfiles Demo.args_gap)) as Hn by (simpl; lia).
  split; [exact Hacc|]. split; [exact Hn|].
  exact (C6_step_size (Demo.engine Demo.in_order) Demo.traceback Demo.args_gap Demo.world Hacc Hn).
Defined.

(** The step size of the example, and the bins it yields. *)
Example step_size_gap :
  sc_stepSize (engine_call Demo.args_gap) = 15000%Z.
Proof. reflexivity. Qed.

Lemma C7_worker_count_determinism_witness :
  (∀ workers ts, Demo.in_order workers ts ≡ₚ ts) ∧
  (∀ workers ts, Demo.last_first workers ts ≡ₚ ts) ∧
  let r1 := run (Demo.engine Demo.in_order) Demo.traceback
                (set_numberOfProcessors Demo.args_bins 1) Demo.world in
  let r2 := run (Demo.engine Demo.last_first) Demo.traceback
                (set_numberOfProcessors Demo.args_bins 4) Demo.world in
  r1.1 = r2.1 ∧
  w_npz r1.2 = w_npz r2.2 ∧
  w_files r1.2 = w_files r2.2 ∧
  w_stdout r1.2 = w_stdout r2.2 ∧
  w_stderr r1.2 = w_stderr r2.2.
Proof.
  split; [exact in_order_perm|]. split; [exact last_first_perm|].
  exact (C7_worker_count_determinism 0%Z (λ _, true) Demo.reader
           [("chr1", 30000%Z)] Demo.regions (λ workers _, Z.to_nat workers) pretty Demo.traceback
           Demo.in_order Demo.last_first Demo.args_bins 1%Z 4%Z Demo.world
           in_order_perm last_first_perm).
Defined.


(** The run of the example does end with the error of the planner. *)
Example bad_bin_size_raises :
  (main (Demo.engine Demo.in_order) Demo.args_bad_bin Demo.world).1
  = Raised (ConfigurationError "bin size must be positive").
Proof. vm_compute. reflexivity. Qed.

(** C9 as stated fails: with one file and two labels the check of the
    labels comes first; the process prints its message and ends with
    status 0, not 1. *)
Lemma C9_label_check_comes_first :
  length (bwfiles Demo.args_one_file) < 2 ∧
  (run (Demo.engine Demo.in_order) Demo.traceback Demo.args_one_file Demo.world).1 = 0%Z ∧
  (run (Demo.engine Demo.in_order) Demo.traceback Demo.args_one_file Demo.world).1 ≠ 1%Z ∧
  w_stdout (run (Demo.engine Demo.in_order) Demo.traceback Demo.args_one_file Demo.world).2
    = "The number of labels does not match the number of bigWig files." +:+ NL ∧
  w_stdout (run (Demo.engine Demo.in_order) Demo.traceback Demo.args_one_file Demo.world).2
    ≠ "Please input at least two bigWig (.bw) files to compare" +:+ NL.
Proof.
  split; [simpl; lia|]. split; [vm_compute; reflexivity|].
  split; [vm_compute; discriminate|]. split; [vm_compute; reflexivity|].
  vm_compute. discriminate.
Qed.

Lemma C9_too_few_files_witness :
  labels_accepted Demo.args_single ∧
  length (bwfiles Demo.args_single) < 2 ∧
  (run (Demo.engine Demo.in_order) Demo.traceback Demo.args_single Demo.world).1 = 1%Z ∧
  w_stdout (run (Demo.engine Demo.in_order) Demo.traceback Demo.args_single Demo.world).2
    = w_stdout Demo.world
      +:+ "Please input at least two bigWig (.bw) files to compare" +:+ NL ∧
  w_calls (run (Demo.engine Demo.in_order) Demo.traceback Demo.args_single Demo.world).2
    = w_calls Demo.world ∧
  w_queries (run (Demo.engine Demo.in_order) Demo.traceback Demo.args_single Demo.world).2
    = w_queries Demo.world ∧
  w_files (run (Demo.engine Demo.in_order) Demo.traceback Demo.args_single Demo.world).2
    = w_files Demo.world ∧
  w_npz (run (Demo.engine Demo.in_order) Demo.traceback Demo.args_single Demo.world).2
    = w_npz Demo.world.
Proof.
  assert (labels_accepted Demo.args_single) as Hacc by (left; reflexivity).
  assert (length (bwfiles Demo.args_single) < 2) as Hfew by (simpl; lia).
  split; [exact Hacc|]. split; [exact Hfew|].
  exact (C9_too_few_files (Demo.engine Demo.in_order) Demo.traceback Demo.args_single Demo.world
           Hacc Hfew).
Defined.

Lemma C10_header_keeps_rows_witness :
  w_files Demo.world_rows !! "raw.tab"
  = Some ("chr1" +:+ TAB +:+ "0" +:+ TAB +:+ "10" +:+ TAB +:+ "1.5" +:+ NL +:+
          "chr1" +:+ TAB +:+ "10" +:+ TAB +:+ "20" +:+ TAB +:+ "2.5" +:+ NL) ∧
  ∃ w', prepend_header "raw.tab" ["a.bw"; "b.bw"] Demo.world_rows = (Ret (), w') ∧
        w_files w' !! "raw.tab"
        = Some (raw_header ["a.bw"; "b.bw"] +:+
                ("chr1" +:+ TAB +:+ "0" +:+ TAB +:+ "10" +:+ TAB +:+ "1.5" +:+ NL +:+
                 "chr1" +:+ TAB +:+ "10" +:+ TAB +:+ "20" +:+ TAB +:+ "2.5" +:+ NL)) ∧
        (∀ other, other ≠ "raw.tab" →
                  w_files w' !! other = w_files Demo.world_rows !! other) ∧
        w_stdout w' = w_stdout Demo.world_rows ∧
        w_stderr w' = w_stderr Demo.world_rows ∧
        w_npz w' = w_npz Demo.world_rows.
Proof.
  assert (w_files Demo.world_rows !! "raw.tab"
          = Some ("chr1" +:+ TAB +:+ "0" +:+ TAB +:+ "10" +:+ TAB +:+ "1.5" +:+ NL +:+
                  "chr1" +:+ TAB +:+ "10" +:+ TAB +:+ "20" +:+ TAB +:+ "2.5" +:+ NL))
    as Hfile by (vm_compute; reflexivity).
  split; [exact Hfile|].
  exact (C10_header_keeps_rows "raw.tab" ["a.bw"; "b.bw"] Demo.world_rows _ Hfile).
Defined.

End Examples.

(** ** Further properties of the labels *)

Section LabelProperties.

Lemma has_char_slash_suffix (q l : string) :
  has_char SLASH (q +:+ "/" +:+ l) = true.
Proof.
  rewrite has_char_app. apply orb_true_iff. right.
  rewrite has_char_app. reflexivity.
Qed.

(** A prefix that is empty or ends with a slash keeps that shape when
    its first character is removed. *)
Lemma slash_prefix_tail (a : ascii) (p : string) :
  (String a p = "" ∨ ∃ q, String a p = q +:+ "/") →
  (p = "" ∨ ∃ q, p = q +:+ "/") ∧ has_char SLASH (String a p) = true.
Proof.
  intros [?|[q Hq]]; [done|].
  destruct q as [|b q].
  - injection Hq as -> ->. split; [by left|reflexivity].
  - rewrite str_app_cons in Hq. injection Hq as -> ->. split; [right; by exists q|].
    change (String b (q +:+ "/")) with (String b q +:+ "/" +:+ "").
    apply has_char_slash_suffix.
Qed.

(** The substring after the final slash is unique. *)
Lemma after_final_slash_unique (s l1 l2 : string) :
  after_final_slash s l1 → after_final_slash s l2 → l1 = l2.
Proof.
  intros (Hl1 & p1 & -> & Hp1) (Hl2 & p2 & Heq & Hp2).
  revert p2 Heq Hp2. induction p1 as [|a p1 IH]; intros p2 Heq Hp2.
  - rewrite str_app_nil_l in Heq. destruct p2 as [|b p2]; [done|].
    apply slash_prefix_tail in Hp2 as [_ Hs].
    rewrite Heq, has_char_app, Hs in Hl1. done.
  - apply slash_prefix_tail in Hp1 as [Hp1 Hs1].
    destruct p2 as [|b p2].
    + rewrite str_app_nil_l in Heq. subst l2.
      rewrite has_char_app, Hs1 in Hl2. done.
    + rewrite !str_app_cons in Heq. injection Heq as -> Heq.
      apply slash_prefix_tail in Hp2 as [Hp2 _].
      by apply (IH Hp1 p2).
Qed.

Lemma split_last_is_basename (f : string) :
  item_last (split SLASH f) = Some (basename f).
Proof.
  destruct (split_last_segment f) as (lbl & -> & Hlbl).
  f_equal. apply (after_final_slash_unique f); [done|apply basename_last_segment].
Qed.

Lemma derived_label_basename (f : string) : derived_label f = basename f.
Proof.
  unfold derived_label. destruct (url_style f); [|done].
  by rewrite split_last_is_basename.
Qed.

(** X1: the branch for URL-style sources and the branch for local paths
    of [process_args] give the same label: for every name,
    [f.split("/")[-1]] is [basename(f)], so the derived label is the
    [basename] whatever the scheme. *)
Theorem url_label_is_basename (f : string) :
  item_last (split SLASH f) = Some (basename f) ∧
  derived_label f = basename f.
Proof. split; [apply split_last_is_basename|apply derived_label_basename]. Qed.

(** X2: the derived label is the last path segment and nothing else: a
    name without a slash is its own label, and a directory part in front
    of it, whatever it is, does not show in the label; files of the same
    name in different directories get the same label, and a name that
    ends with a slash gets the empty label. *)
Theorem label_is_last_segment (dir name : string)
    (Hname : has_char SLASH name = false) :
  derived_label name = name ∧
  derived_label (dir +:+ "/" +:+ name) = name ∧
  derived_label (dir +:+ "/") = "".
Proof.
  rewrite !derived_label_basename. split_and!.
  - apply (after_final_slash_unique name); [apply basename_last_segment|].
    split; [done|]. exists "". auto.
  - apply (after_final_slash_unique (dir +:+ "/" +:+ name));
      [apply basename_last_segment|].
    split; [done|]. exists (dir +:+ "/"). split; [by rewrite str_app_assoc|eauto].
  - apply (after_final_slash_unique (dir +:+ "/")); [apply basename_last_segment|].
    split; [done|]. exists (dir +:+ "/"). split; [by rewrite str_app_nil_r|eauto].
Qed.

Lemma split_no_sep (c : ascii) (a : string) :
  has_char c a = false → split c a = [a].
Proof.
  induction a as [|x a IH]; [done|]. simpl.
  intros [Hx Ha]%orb_false_iff. by rewrite Hx, IH.
Qed.

Lemma split_app_sep (c : ascii) (a b : string) :
  has_char c a = false → split c (a +:+ String c b) = a :: split c b.
Proof.
  induction a as [|x a IH].
  - intros _. rewrite str_app_nil_l. simpl. by rewrite Ascii.eqb_refl.
  - intros Hxa. simpl in Hxa. apply orb_false_iff in Hxa as [Hx Ha].
    rewrite str_app_cons. simpl. by rewrite Hx, IH.
Qed.

Lemma split_quoted_labels (ls : list string) :
  ls ≠ [] →
  Forall (λ l, has_char "009" l = false) ls →
  split "009" ("'" +:+ join ("'" +:+ TAB +:+ "'") ls +:+ "'") = quoted <$> ls.
Proof.
  intros Hne Hls. induction Hls as [|l ls Hl Hls IH]; [done|].
  destruct ls as [|l' ls].
  - change (join ("'" +:+ TAB +:+ "'") [l]) with l.
    rewrite split_no_sep; [done|].
    by rewrite !has_char_app, Hl.
  - change (join ("'" +:+ TAB +:+ "'") (l :: l' :: ls))
      with (l +:+ ("'" +:+ TAB +:+ "'") +:+ join ("'" +:+ TAB +:+ "'") (l' :: ls)).
    replace ("'" +:+ (l +:+ ("'" +:+ TAB +:+ "'")
                        +:+ join ("'" +:+ TAB +:+ "'") (l' :: ls)) +:+ "'")
      with (quoted l +:+ String "009"
              ("'" +:+ join ("'" +:+ TAB +:+ "'") (l' :: ls) +:+ "'")).
    + rewrite split_app_sep by (unfold quoted; by rewrite !has_char_app, Hl).
      rewrite IH by done. done.
    + unfold quoted, TAB. rewrite !str_app_assoc. reflexivity.
Qed.

(** X3: the header has one column per coordinate and per label: cut at
    the tabs, its line is [#'chr'], ['start'], ['end'] and then each
    label in single quotes, in the order of the labels, when there is at
    least one label and no label holds a tab. *)
Theorem header_columns (ls : list string)
    (Hne : ls ≠ [])
    (Htab : Forall (λ l, has_char "009" l = false) ls) :
  raw_header ls = header_line ls +:+ NL ∧
  split "009" (header_line ls)
    = ["#'chr'"; "'start'"; "'end'"] ++ (quoted <$> ls) ∧
  length (split "009" (header_line ls)) = (3 + length ls)%nat.
Proof.
  assert (split "009" (header_line ls)
          = ["#'chr'"; "'start'"; "'end'"] ++ (quoted <$> ls)) as Hsplit.
  { change (header_line ls)
      with ("#'chr'" +:+ String "009"
              ("'start'" +:+ String "009"
                 ("'end'" +:+ String "009"
                    ("'" +:+ join ("'" +:+ TAB +:+ "'") ls +:+ "'")))).
    rewrite !split_app_sep by reflexivity.
    by rewrite split_quoted_labels. }
  split; [apply raw_header_line|]. split; [done|].
  rewrite Hsplit, length_app, length_fmap. reflexivity.
Qed.

End LabelProperties.

(** ** Further properties of [process_args] and [main] *)

Section RunProperties.

Context {V : Type}.
Variable getScorePerBin :
  ScoreCall → gmap string string → (Exn + Matrix (V:=V)) * gmap string string * list Query.
Variable traceback : Exn → string.

Lemma label_check_false (args : Args) :
  labels_accepted args →
  truthy (labels args)
  && negb (length (bwfiles args) =? length (default [] (labels args)))%nat = false.
Proof.
  intros [-> | ->]; [done|]. rewrite Nat.eqb_refl. apply andb_false_r.
Qed.

Lemma label_check_true (args : Args) :
  ¬ labels_accepted args →
  truthy (labels args)
  && negb (length (bwfiles args) =? length (default [] (labels args)))%nat = true.
Proof.
  intros Hrej. destruct (labels_accepted_dec args) as [?|[-> Hlen]]; [done|].
  apply Nat.eqb_neq in Hlen. by rewrite Hlen.
Qed.

(** X4: labels of the user's, as many as there are files, are kept as
    they are: [process_args] returns the namespace unchanged, derives
    nothing from the file names, prints nothing and changes nothing. *)
Theorem process_args_keeps_supplied_labels (args : Args) (w : World (V:=V))
    (ls : list string)
    (Hgiven : labels args = Some ls)
    (Hsome : ls ≠ [])
    (Hlen : length ls = length (bwfiles args)) :
  process_args args w = (Ret args, w) ∧
  final_labels args = ls.
Proof.
  assert (truthy (labels args) = true) as Ht
    by (rewrite Hgiven; by destruct ls).
  assert (labels_accepted args) as Hacc
    by (right; by rewrite Hgiven).
  split.
  - rewrite process_args_accepted by done. unfold final_labels.
    rewrite Ht, Hgiven. simpl. rewrite <-Hgiven.
    by destruct args.
  - unfold final_labels. by rewrite Ht, Hgiven.
Qed.

(** X5: a run that fails validation does no work: when the labels are
    rejected or there are fewer than two files, the engine is not
    called, no range query is made, no file and no saved container
    changes and nothing goes to [stderr]; [stdout] gets one line, the
    label message with exit status 0 or else the request for two files
    with exit status 1. *)
Theorem validation_failure_touches_nothing (args : Args) (w : World (V:=V))
    (Hfail : ¬ labels_accepted args ∨ (length (bwfiles args) < 2)%nat) :
  let r := run getScorePerBin traceback args w in
  w_calls r.2 = w_calls w ∧
  w_queries r.2 = w_queries w ∧
  w_files r.2 = w_files w ∧
  w_npz r.2 = w_npz w ∧
  w_stderr r.2 = w_stderr w ∧
  (¬ labels_accepted args →
   r.1 = 0 ∧
   w_stdout r.2
   = w_stdout w
     +:+ "The number of labels does not match the number of bigWig files." +:+ NL) ∧
  (labels_accepted args →
   r.1 = 1 ∧
   w_stdout r.2
   = w_stdout w +:+ "Please input at least two bigWig (.bw) files to compare" +:+ NL).
Proof.
  intros r. unfold r. rewrite run_spec.
  destruct (labels_accepted_dec args) as [Hacc|[Ht Hlen]].
  - rewrite label_check_false by done.
    destruct Hfail as [?|Hfew]; [done|].
    apply Nat.ltb_lt in Hfew. rewrite Hfew. simpl.
    split_and!; try done.
  - assert (¬ labels_accepted args) as Hrej.
    { intros [?|?]; [congruence|done]. }
    rewrite label_check_true by done. simpl.
    split_and!; try done.
Qed.

(** X6: whatever the arguments, [stdout] ends as it was, or with the
    label message added, or with the request for two files added, and
    it is unchanged exactly on the runs that reach the engine: the
    message of the check for zero files is never printed, that check
    being unreachable behind the check for fewer than two. *)
Theorem stdout_after_run (args : Args) (w : World (V:=V)) :
  (¬ labels_accepted args ∧
   w_stdout (run getScorePerBin traceback args w).2
   = w_stdout w
     +:+ "The number of labels does not match the number of bigWig files." +:+ NL) ∨
  (labels_accepted args ∧ (length (bwfiles args) < 2)%nat ∧
   w_stdout (run getScorePerBin traceback args w).2
   = w_stdout w +:+ "Please input at least two bigWig (.bw) files to compare" +:+ NL) ∨
  (labels_accepted args ∧ (2 ≤ length (bwfiles args))%nat ∧
   w_stdout (run getScorePerBin traceback args w).2 = w_stdout w ∧
   w_calls (run getScorePerBin traceback args w).2 = w_calls w ++ [engine_call args]).
Proof.
  rewrite run_spec.
  destruct (labels_accepted_dec args) as [Hacc|[Ht Hlen]].
  - rewrite label_check_false by done. right.
    destruct (Nat.ltb_spec (length (bwfiles args)) 2) as [Hfew|Hn].
    + left. by simpl.
    + right. split; [done|]. split; [done|].
      destruct (getScorePerBin (engine_call args) (w_files w))
        as [[[e|m] fs] qs] eqn:He.
      * by rewrite (after_engine_eq _ _ _ _ _ _ He).
      * destruct (shape0 m <? 2)%nat.
        -- by rewrite (after_count_eq _ _ _ _ _ _ _ He).
        -- cbv zeta. rewrite (after_save_eq _ _ _ _ _ _ _ He).
           destruct (outRawCounts args) as [name|]; [|done].
           by destruct (fs !! name).
  - left. split; [intros [?|?]; [congruence|done]|].
    rewrite label_check_true; [done|]. intros [?|?]; [congruence|done].
Qed.

(** X7: an exception of the engine ends the run: the exception is not
    caught, the process ends with status 1, [main] writes nothing to
    [stdout] and nothing to [stderr], which gets the traceback of the
    interpreter and no line with the number of bins; no container is
    saved, and the files are left as the engine left them, the raw file
    without a header. *)
Theorem engine_failure_saves_nothing (args : Args) (w : World (V:=V))
    (e : Exn) (fs : gmap string string) (qs : list Query)
    (Hacc : labels_accepted args)
    (Hn : (2 ≤ length (bwfiles args))%nat)
    (He : getScorePerBin (engine_call args) (w_files w) = (inl e, fs, qs)) :
  (main getScorePerBin args w).1 = Raised e ∧
  (run getScorePerBin traceback args w).1 = 1 ∧
  w_npz (run getScorePerBin traceback args w).2 = w_npz w ∧
  w_files (run getScorePerBin traceback args w).2 = fs ∧
  w_stdout (run getScorePerBin traceback args w).2 = w_stdout w ∧
  w_stderr (main getScorePerBin args w).2 = w_stderr w ∧
  w_stderr (run getScorePerBin traceback args w).2 = w_stderr w +:+ traceback e.
Proof.
  split; [by rewrite (main_engine_raises _ _ _ _ _ _ Hacc Hn He)|].
  assert (w_stderr (main getScorePerBin args w).2 = w_stderr w) as Hmain.
  { rewrite (main_engine_raises _ _ _ _ _ _ Hacc Hn He).
    by rewrite (after_engine_eq _ _ _ _ _ _ He). }
  rewrite run_spec, label_check_false by done.
  destruct (Nat.ltb_spec (length (bwfiles args)) 2) as [?|_]; [lia|].
  rewrite He, (after_engine_eq _ _ _ _ _ _ He). done.
Qed.

(** X8: a run that finds fewer than two bins leaves the files as the
    engine left them: the raw file, when one was asked for, holds the
    rows of the engine and no header. *)
Theorem too_few_bins_leaves_files (args : Args) (w : World (V:=V))
    (m : Matrix (V:=V)) (fs : gmap string string) (qs : list Query)
    (Hacc : labels_accepted args)
    (Hn : (2 ≤ length (bwfiles args))%nat)
    (He : getScorePerBin (engine_call args) (w_files w) = (inr m, fs, qs))
    (Hm : (shape0 m < 2)%nat) :
  w_files (run getScorePerBin traceback args w).2 = fs ∧
  w_stdout (run getScorePerBin traceback args w).2 = w_stdout w ∧
  w_queries (run getScorePerBin traceback args w).2 = w_queries w ++ qs.
Proof.
  rewrite run_spec, label_check_false by done.
  destruct (Nat.ltb_spec (length (bwfiles args)) 2) as [?|_]; [lia|].
  rewrite He. apply Nat.ltb_lt in Hm. rewrite Hm.
  rewrite (after_count_eq _ _ _ _ _ _ _ He). done.
Qed.

(** X9: a container that a run adds holds the array of the engine as it
    was returned, with at least two rows, and the labels of the run, one
    per file for at least two files. *)
Theorem saved_container_invariant (args : Args) (w : World (V:=V))
    (npz : Npz (V:=V))
    (Hfresh : w_npz w !! outFileName args = None)
    (Hsaved : w_npz (run getScorePerBin traceback args w).2 !! outFileName args = Some npz) :
  (getScorePerBin (engine_call args) (w_files w)).1.1 = inr (npz_matrix npz) ∧
  (2 ≤ shape0 (npz_matrix npz))%nat ∧
  npz_labels npz = Some (final_labels args) ∧
  length (final_labels args) = length (bwfiles args) ∧
  (2 ≤ length (bwfiles args))%nat.
Proof.
  rewrite run_spec in Hsaved.
  destruct (truthy (labels args) && _) eqn:Hcheck;
    [simpl in Hsaved; congruence|].
  apply labels_accepted_of_check in Hcheck as Hacc.
  destruct (Nat.ltb_spec (length (bwfiles args)) 2) as [?|Hn];
    [simpl in Hsaved; congruence|].
  destruct (getScorePerBin (engine_call args) (w_files w))
    as [[[e|m] fs] qs] eqn:He.
  { rewrite (after_engine_eq _ _ _ _ _ _ He) in Hsaved. simpl in Hsaved. congruence. }
  destruct (Nat.ltb_spec (shape0 m) 2) as [?|Hm].
  { rewrite (after_count_eq _ _ _ _ _ _ _ He) in Hsaved. simpl in Hsaved. congruence. }
  cbv zeta in Hsaved. rewrite (after_save_eq _ _ _ _ _ _ _ He) in Hsaved.
  assert (npz = {| npz_matrix := m; npz_labels := Some (final_labels args) |})
    as ->.
  { destruct (outRawCounts args) as [name|];
      [destruct (fs !! name)|]; simpl in Hsaved;
      rewrite lookup_insert_eq in Hsaved; congruence. }
  simpl. split_and!; [done|done|done| |done].
  by apply length_final_labels.
Qed.

(** X10: a run without raw output whose engine returns at least two
    bins ends with status 0: the array is saved as returned, with the
    labels, under the output name, replacing what was saved there;
    [stderr] gets the line with the number of bins, [stdout] nothing,
    and the files are left as the engine left them. *)
Theorem completed_run_without_raw (args : Args) (w : World (V:=V))
    (m : Matrix (V:=V)) (fs : gmap string string) (qs : list Query)
    (Hacc : labels_accepted args)
    (Hn : (2 ≤ length (bwfiles args))%nat)
    (Hraw : outRawCounts args = None)
    (He : getScorePerBin (engine_call args) (w_files w) = (inr m, fs, qs))
    (Hm : (2 ≤ shape0 m)%nat) :
  (run getScorePerBin traceback args w).1 = 0 ∧
  w_npz (run getScorePerBin traceback args w).2
    = <[outFileName args := {| npz_matrix := m;
                               npz_labels := Some (final_labels args) |}]> (w_npz w) ∧
  w_files (run getScorePerBin traceback args w).2 = fs ∧
  w_stdout (run getScorePerBin traceback args w).2 = w_stdout w ∧
  w_stderr (run getScorePerBin traceback args w).2
    = w_stderr w +:+ "Number of bins found: "
        +:+ format_int (Z.of_nat (shape0 m)) +:+ NL.
Proof.
  rewrite run_spec, label_check_false by done.
  destruct (Nat.ltb_spec (length (bwfiles args)) 2) as [?|_]; [lia|].
  rewrite He.
  destruct (Nat.ltb_spec (shape0 m) 2) as [?|_]; [lia|].
  cbv zeta. rewrite Hraw, (after_save_eq _ _ _ _ _ _ _ He). done.
Qed.

(** X11: the container is saved before the header is written: when the
    raw file cannot be opened for the header, [IOError] ends the run
    with status 1, and the container is saved all the same; no file
    changes after the engine. *)
Theorem header_failure_keeps_container (args : Args) (w : World (V:=V))
    (m : Matrix (V:=V)) (fs : gmap string string) (qs : list Query)
    (name : string)
    (Hacc : labels_accepted args)
    (Hn : (2 ≤ length (bwfiles args))%nat)
    (Hraw : outRawCounts args = Some name)
    (He : getScorePerBin (engine_call args) (w_files w) = (inr m, fs, qs))
    (Hm : (2 ≤ shape0 m)%nat)
    (Hgone : fs !! name = None) :
  (main getScorePerBin args w).1 = Raised (IOError name) ∧
  (run getScorePerBin traceback args w).1 = 1 ∧
  w_npz (run getScorePerBin traceback args w).2 !! outFileName args
    = Some {| npz_matrix := m; npz_labels := Some (final_labels args) |} ∧
  w_files (run getScorePerBin traceback args w).2 = fs.
Proof.
  split.
  - rewrite (main_completes _ _ _ _ _ _ Hacc Hn He Hm), Hraw.
    rewrite prepend_header_spec, (after_save_eq _ _ _ _ _ _ _ He). simpl.
    by rewrite Hgone.
  - rewrite run_spec, label_check_false by done.
    destruct (Nat.ltb_spec (length (bwfiles args)) 2) as [?|_]; [lia|].
    rewrite He.
    destruct (Nat.ltb_spec (shape0 m) 2) as [?|_]; [lia|].
    cbv zeta. rewrite Hraw, Hgone, (after_save_eq _ _ _ _ _ _ _ He). simpl.
    split_and!; [done| |done]. apply lookup_insert_eq.
Qed.

(** X12: when the labels pass the check, exit status 0 means that the
    matrix was saved: the engine returned an array of at least two rows
    and the container under the output name holds it with the labels. *)
Theorem status_zero_means_saved (args : Args) (w : World (V:=V))
    (Hacc : labels_accepted args)
    (Hzero : (run getScorePerBin traceback args w).1 = 0) :
  ∃ m, (getScorePerBin (engine_call args) (w_files w)).1.1 = inr m ∧
       (2 ≤ shape0 m)%nat ∧
       (2 ≤ length (bwfiles args))%nat ∧
       w_npz (run getScorePerBin traceback args w).2 !! outFileName args
       = Some {| npz_matrix := m; npz_labels := Some (final_labels args) |}.
Proof.
  revert Hzero. rewrite run_spec, label_check_false by done.
  destruct (Nat.ltb_spec (length (bwfiles args)) 2) as [?|Hn]; [done|].
  destruct (getScorePerBin (engine_call args) (w_files w))
    as [[[e|m] fs] qs] eqn:He; [done|].
  destruct (Nat.ltb_spec (shape0 m) 2) as [?|Hm]; [done|].
  cbv zeta. rewrite (after_save_eq _ _ _ _ _ _ _ He).
  intros Hzero. exists m. split_and!; [done..|].
  destruct (outRawCounts args) as [name|]; [destruct (fs !! name)|];
    simpl; apply lookup_insert_eq.
Qed.

(** X13: the labels are cosmetic: two runs that differ only in their
    labels, both accepted, call the engine with the same arguments, end
    with the same status and the same streams, save the same matrix, and
    leave the same files but for the raw file, whose header names the
    labels. *)
Theorem labels_do_not_change_scores (args : Args) (ls : option (list string))
    (w : World (V:=V))
    (Hacc1 : labels_accepted args)
    (Hacc2 : labels_accepted (set_labels args ls)) :
  let r1 := run getScorePerBin traceback args w in
  let r2 := run getScorePerBin traceback (set_labels args ls) w in
  r1.1 = r2.1 ∧
  w_calls r1.2 = w_calls r2.2 ∧
  w_stdout r1.2 = w_stdout r2.2 ∧
  w_stderr r1.2 = w_stderr r2.2 ∧
  npz_matrix <$> (w_npz r1.2 !! outFileName args)
    = npz_matrix <$> (w_npz r2.2 !! outFileName args) ∧
  (∀ name, outRawCounts args ≠ Some name →
           w_files r1.2 !! name = w_files r2.2 !! name).
Proof.
  intros r1 r2. unfold r1, r2. rewrite !run_spec.
  rewrite !label_check_false by done.
  change (bwfiles (set_labels args ls)) with (bwfiles args).
  change (engine_call (set_labels args ls)) with (engine_call args).
  change (outRawCounts (set_labels args ls)) with (outRawCounts args).
  destruct (length (bwfiles args) <? 2)%nat; [done|].
  destruct (getScorePerBin (engine_call args) (w_files w))
    as [[[e|m] fs] qs] eqn:He.
  - assert (getScorePerBin (engine_call (set_labels args ls)) (w_files w)
            = (inl e, fs, qs)) as He' by exact He.
    rewrite (after_engine_eq _ _ _ _ _ _ He), (after_engine_eq _ _ _ _ _ _ He').
    done.
  - assert (getScorePerBin (engine_call (set_labels args ls)) (w_files w)
            = (inr m, fs, qs)) as He' by exact He.
    destruct (shape0 m <? 2)%nat.
    + rewrite (after_count_eq _ _ _ _ _ _ _ He), (after_count_eq _ _ _ _ _ _ _ He').
      done.
    + cbv zeta.
      rewrite (after_save_eq _ _ _ _ _ _ _ He), (after_save_eq _ _ _ _ _ _ _ He').
      change (outFileName (set_labels args ls)) with (outFileName args).
      destruct (outRawCounts args) as [name|].
      * destruct (fs !! name); simpl; rewrite !lookup_insert_eq;
          (split_and!; [done..|]); intros other Hne;
          [rewrite !lookup_insert_ne by congruence|]; done.
      * simpl. rewrite !lookup_insert_eq. done.
Qed.

(** X14: [main] raises no exception of its own making: an exception that
    ends a run is the one the engine raised, or the [IOError] of the raw
    file that could not be opened for its header; the derivation of the
    labels and the building of the header raise nothing. *)
Theorem exceptions_of_main (args : Args) (w : World (V:=V)) (e : Exn)
    (Hraised : (main getScorePerBin args w).1 = Raised e) :
  (getScorePerBin (engine_call args) (w_files w)).1.1 = inl e ∨
  (∃ name, e = IOError name ∧ outRawCounts args = Some name ∧
           (getScorePerBin (engine_call args) (w_files w)).1.2 !! name = None).
Proof.
  destruct (labels_accepted_dec args) as [Hacc|[Ht Hlen]].
  - destruct (Nat.ltb_spec (length (bwfiles args)) 2) as [Hfew|Hn].
    { rewrite main_few_files in Hraised by done. done. }
    destruct (getScorePerBin (engine_call args) (w_files w))
      as [[[e'|m] fs] qs] eqn:He.
    + rewrite (main_engine_raises _ _ _ _ _ _ Hacc Hn He) in Hraised.
      left. simpl in *. congruence.
    + destruct (Nat.ltb_spec (shape0 m) 2) as [Hm|Hm].
      { rewrite (main_too_few_bins _ _ _ _ _ _ Hacc Hn He Hm) in Hraised. done. }
      rewrite (main_completes _ _ _ _ _ _ Hacc Hn He Hm) in Hraised.
      destruct (outRawCounts args) as [name|]; [|done].
      rewrite prepend_header_spec, (after_save_eq _ _ _ _ _ _ _ He) in Hraised.
      simpl in Hraised. destruct (fs !! name) eqn:Hname; [done|].
      right. exists name. simpl in *. split_and!; [congruence|done|done].
  - rewrite main_rejected in Hraised by done. done.
Qed.

End RunProperties.

(** ** The further properties on the small genome *)

Section FurtherExamples.

Local Open Scope nat_scope.

Lemma label_is_last_segment_witness :
  has_char SLASH "a.bw" = false ∧
  derived_label "a.bw" = "a.bw" ∧
  derived_label ("http://host/pub" +:+ "/" +:+ "a.bw") = "a.bw" ∧
  derived_label ("http://host/pub" +:+ "/") = "".
Proof.
  split; [reflexivity|].
  exact (label_is_last_segment "http://host/pub" "a.bw" eq_refl).
Defined.

Lemma header_columns_witness :
  ["a.bw"; "b.bw"] ≠ [] ∧
  Forall (λ l, has_char "009" l = false) ["a.bw"; "b.bw"] ∧
  raw_header ["a.bw"; "b.bw"] = header_line ["a.bw"; "b.bw"] +:+ NL ∧
  split "009" (header_line ["a.bw"; "b.bw"])
    = ["#'chr'"; "'start'"; "'end'"] ++ (quoted <$> ["a.bw"; "b.bw"]) ∧
  length (split "009" (header_line ["a.bw"; "b.bw"])) = 3 + length ["a.bw"; "b.bw"].
Proof.
  assert (["a.bw"; "b.bw"] ≠ []) as Hne by discriminate.
  assert (Forall (λ l, has_char "009" l = false) ["a.bw"; "b.bw"]) as Htab
    by (repeat constructor).
  split; [exact Hne|]. split; [exact Htab|].
  exact (header_columns ["a.bw"; "b.bw"] Hne Htab).
Defined.

Lemma process_args_keeps_supplied_labels_witness :
  labels Demo.args_supplied = Some ["ctrl"; "chip"] ∧
  ["ctrl"; "chip"] ≠ [] ∧
  length ["ctrl"; "chip"] = length (bwfiles Demo.args_supplied) ∧
  process_args Demo.args_supplied Demo.world = (Ret Demo.args_supplied, Demo.world) ∧
  final_labels Demo.args_supplied = ["ctrl"; "chip"].
Proof.
  assert (["ctrl"; "chip"] ≠ []) as Hne by discriminate.
  split; [reflexivity|]. split; [exact Hne|]. split; [reflexivity|].
  exact (process_args_keeps_supplied_labels Demo.args_supplied Demo.world
           ["ctrl"; "chip"] eq_refl Hne eq_refl).
Defined.

Lemma mismatch_not_accepted : ¬ labels_accepted Demo.args_mismatch.
Proof. intros [H|H]; vm_compute in H; discriminate. Qed.

Lemma validation_failure_touches_nothing_witness :
  (¬ labels_accepted Demo.args_mismatch
   ∨ length (bwfiles Demo.args_mismatch) < 2) ∧
  let r := run (Demo.engine Demo.in_order) Demo.traceback Demo.args_mismatch Demo.world in
  w_calls r.2 = w_calls Demo.world ∧
  w_queries r.2 = w_queries Demo.world ∧
  w_files r.2 = w_files Demo.world ∧
  w_npz r.2 = w_npz Demo.world ∧
  w_stderr r.2 = w_stderr Demo.world ∧
  (¬ labels_accepted Demo.args_mismatch →
   r.1 = 0%Z ∧
   w_stdout r.2
   = w_stdout Demo.world
     +:+ "The number of labels does not match the number of bigWig files." +:+ NL) ∧
  (labels_accepted Demo.args_mismatch →
   r.1 = 1%Z ∧
   w_stdout r.2
   = w_stdout Demo.world
     +:+ "Please input at least two bigWig (.bw) files to compare" +:+ NL).
Proof.
  split; [left; exact mismatch_not_accepted|].
  exact (validation_failure_touches_nothing (Demo.engine Demo.in_order) Demo.traceback
           Demo.args_mismatch Demo.world (or_introl mismatch_not_accepted)).
Defined.

Lemma engine_failure_saves_nothing_witness :
  labels_accepted Demo.args_bad_bin ∧
  2 ≤ length (bwfiles Demo.args_bad_bin) ∧
  Demo.engine Demo.in_order (engine_call Demo.args_bad_bin) (w_files Demo.world)
    = (inl (ConfigurationError "bin size must be positive"), w_files Demo.world, []) ∧
  (main (Demo.engine Demo.in_order) Demo.args_bad_bin Demo.world).1
    = Raised (ConfigurationError "bin size must be positive") ∧
  (run (Demo.engine Demo.in_order) Demo.traceback Demo.args_bad_bin Demo.world).1 = 1%Z ∧
  w_npz (run (Demo.engine Demo.in_order) Demo.traceback Demo.args_bad_bin Demo.world).2
    = w_npz Demo.world ∧
  w_files (run (Demo.engine Demo.in_order) Demo.traceback Demo.args_bad_bin Demo.world).2
    = w_files Demo.world ∧
  w_stdout (run (Demo.engine Demo.in_order) Demo.traceback Demo.args_bad_bin Demo.world).2
    = w_stdout Demo.world ∧
  w_stderr (main (Demo.engine Demo.in_order) Demo.args_bad_bin Demo.world).2
    = w_stderr Demo.world ∧
  w_stderr (run (Demo.engine Demo.in_order) Demo.traceback Demo.args_bad_bin Demo.world).2
    = w_stderr Demo.world
      +:+ Demo.traceback (ConfigurationError "bin size must be positive").
Proof.
  assert (labels_accepted Demo.args_bad_bin) as Hacc by (left; reflexivity).
  assert (2 ≤ length (bwfiles Demo.args_bad_bin)) as Hn by (simpl; lia).
  assert (Demo.engine Demo.in_order (engine_call Demo.args_bad_bin)
                      (w_files Demo.world)
          = (inl (ConfigurationError "bin size must be positive"),
             w_files Demo.world, [])) as He by (vm_compute; reflexivity).
  split; [exact Hacc|]. split; [exact Hn|]. split; [exact He|].
  exact (engine_failure_saves_nothing (Demo.engine Demo.in_order) Demo.traceback Demo.args_bad_bin
           Demo.world _ _ _ Hacc Hn He).
Defined.

Lemma too_few_bins_leaves_files_witness :
  labels_accepted Demo.args_bins ∧
  2 ≤ length (bwfiles Demo.args_bins) ∧
  Demo.engine_one_bin (engine_call Demo.args_bins) (w_files Demo.world_rows)
    = (inr [[1; 10]]%Z, w_files Demo.world_rows, []) ∧
  shape0 [[1; 10]]%Z < 2 ∧
  w_files (run Demo.engine_one_bin Demo.traceback Demo.args_bins Demo.world_rows).2
    = w_files Demo.world_rows ∧
  w_stdout (run Demo.engine_one_bin Demo.traceback Demo.args_bins Demo.world_rows).2
    = w_stdout Demo.world_rows ∧
  w_queries (run Demo.engine_one_bin Demo.traceback Demo.args_bins Demo.world_rows).2
    = w_queries Demo.world_rows ++ [].
Proof.
  assert (labels_accepted Demo.args_bins) as Hacc by (left; reflexivity).
  assert (2 ≤ length (bwfiles Demo.args_bins)) as Hn by (simpl; lia).
  assert (Demo.engine_one_bin (engine_call Demo.args_bins) (w_files Demo.world_rows)
          = (inr [[1; 10]]%Z, w_files Demo.world_rows, [])) as He by reflexivity.
  assert (shape0 [[1; 10]]%Z < 2) as Hm by (simpl; lia).
  split; [exact Hacc|]. split; [exact Hn|]. split; [exact He|]. split; [exact Hm|].
  exact (too_few_bins_leaves_files Demo.engine_one_bin Demo.traceback
           Demo.args_bins Demo.world_rows _ _ _ Hacc Hn He Hm).
Defined.

(** The raw file of that run holds the rows it held and no header. *)
Example raw_file_without_header :
  w_files (run Demo.engine_one_bin Demo.traceback Demo.args_bins Demo.world_rows).2
    !! "raw.tab"
  = w_files Demo.world_rows !! "raw.tab".
Proof. vm_compute. reflexivity. Qed.

Lemma saved_container_invariant_witness :
  w_npz Demo.world !! outFileName Demo.args_plain = None ∧
  w_npz (run (Demo.engine Demo.in_order) Demo.traceback Demo.args_plain Demo.world).2
    !! outFileName Demo.args_plain
  = Some {| npz_matrix := [[1; 2; 3]; [10; 20; 30]]%Z;
            npz_labels := Some ["a.bw"; "b.bw"] |} ∧
  (Demo.engine Demo.in_order (engine_call Demo.args_plain) (w_files Demo.world)).1.1
    = inr [[1; 2; 3]; [10; 20; 30]]%Z ∧
  2 ≤ shape0 [[1; 2; 3]; [10; 20; 30]]%Z ∧
  Some ["a.bw"; "b.bw"] = Some (final_labels Demo.args_plain) ∧
  length (final_labels Demo.args_plain) = length (bwfiles Demo.args_plain) ∧
  2 ≤ length (bwfiles Demo.args_plain).
Proof.
  assert (w_npz Demo.world !! outFileName Demo.args_plain = None) as Hfresh
    by reflexivity.
  assert (w_npz (run (Demo.engine Demo.in_order) Demo.traceback Demo.args_plain Demo.world).2
            !! outFileName Demo.args_plain
          = Some {| npz_matrix := [[1; 2; 3]; [10; 20; 30]]%Z;
                    npz_labels := Some ["a.bw"; "b.bw"] |}) as Hsaved
    by (vm_compute; reflexivity).
  split; [exact Hfresh|]. split; [exact Hsaved|].
  exact (saved_container_invariant (Demo.engine Demo.in_order) Demo.traceback Demo.args_plain
           Demo.world _ Hfresh Hsaved).
Defined.

Lemma completed_run_without_raw_witness :
  labels_accepted Demo.args_plain ∧
  2 ≤ length (bwfiles Demo.args_plain) ∧
  outRawCounts Demo.args_plain = None ∧
  Demo.engine Demo.in_order (engine_call Demo.args_plain) (w_files Demo.world)
    = (inr [[1; 2; 3]; [10; 20; 30]]%Z, w_files Demo.world,
       (Demo.engine Demo.in_order (engine_call Demo.args_plain)
                    (w_files Demo.world)).2) ∧
  2 ≤ shape0 [[1; 2; 3]; [10; 20; 30]]%Z ∧
  (run (Demo.engine Demo.in_order) Demo.traceback Demo.args_plain Demo.world).1 = 0%Z ∧
  w_npz (run (Demo.engine Demo.in_order) Demo.traceback Demo.args_plain Demo.world).2
    = <[outFileName Demo.args_plain
        := {| npz_matrix := [[1; 2; 3]; [10; 20; 30]]%Z;
              npz_labels := Some (final_labels Demo.args_plain) |}]>
        (w_npz Demo.world) ∧
  w_files (run (Demo.engine Demo.in_order) Demo.traceback Demo.args_plain Demo.world).2
    = w_files Demo.world ∧
  w_stdout (run (Demo.engine Demo.in_order) Demo.traceback Demo.args_plain Demo.world).2
    = w_stdout Demo.world ∧
  w_stderr (run (Demo.engine Demo.in_order) Demo.traceback Demo.args_plain Demo.world).2
    = w_stderr Demo.world +:+ "Number of bins found: "
        +:+ format_int (Z.of_nat (shape0 [[1; 2; 3]; [10; 20; 30]]%Z)) +:+ NL.
Proof.
  assert (labels_accepted Demo.args_plain) as Hacc by (left; reflexivity).
  assert (2 ≤ length (bwfiles Demo.args_plain)) as Hn by (simpl; lia).
  assert (outRawCounts Demo.args_plain = None) as Hraw by reflexivity.
  assert (Demo.engine Demo.in_order (engine_call Demo.args_plain) (w_files Demo.world)
          = (inr [[1; 2; 3]; [10; 20; 30]]%Z, w_files Demo.world,
             (Demo.engine Demo.in_order (engine_call Demo.args_plain)
                          (w_files Demo.world)).2)) as He
    by (vm_compute; reflexivity).
  assert (2 ≤ shape0 [[1; 2; 3]; [10; 20; 30]]%Z) as Hm by (simpl; lia).
  split; [exact Hacc|]. split; [exact Hn|]. split; [exact Hraw|].
  split; [exact He|]. split; [exact Hm|].
  exact (completed_run_without_raw (Demo.engine Demo.in_order) Demo.traceback Demo.args_plain
           Demo.world _ _ _ Hacc Hn Hraw He Hm).
Defined.

Lemma header_failure_keeps_container_witness :
  labels_accepted Demo.args_bins ∧
  2 ≤ length (bwfiles Demo.args_bins) ∧
  outRawCounts Demo.args_bins = Some "raw.tab" ∧
  Demo.engine_dropping (engine_call Demo.args_bins) (w_files Demo.world)
    = (inr [[1; 10]; [2; 20]]%Z, delete "raw.tab" (w_files Demo.world), []) ∧
  2 ≤ shape0 [[1; 10]; [2; 20]]%Z ∧
  delete "raw.tab" (w_files Demo.world) !! "raw.tab" = None ∧
  (main Demo.engine_dropping Demo.args_bins Demo.world).1
    = Raised (IOError "raw.tab") ∧
  (run Demo.engine_dropping Demo.traceback Demo.args_bins Demo.world).1 = 1%Z ∧
  w_npz (run Demo.engine_dropping Demo.traceback Demo.args_bins Demo.world).2
    !! outFileName Demo.args_bins
  = Some {| npz_matrix := [[1; 10]; [2; 20]]%Z;
            npz_labels := Some (final_labels Demo.args_bins) |} ∧
  w_files (run Demo.engine_dropping Demo.traceback Demo.args_bins Demo.world).2
    = delete "raw.tab" (w_files Demo.world).
Proof.
  assert (labels_accepted Demo.args_bins) as Hacc by (left; reflexivity).
  assert (2 ≤ length (bwfiles Demo.args_bins)) as Hn by (simpl; lia).
  assert (outRawCounts Demo.args_bins = Some "raw.tab") as Hraw by reflexivity.
  assert (Demo.engine_dropping (engine_call Demo.args_bins) (w_files Demo.world)
          = (inr [[1; 10]; [2; 20]]%Z, delete "raw.tab" (w_files Demo.world), []))
    as He by reflexivity.
  assert (2 ≤ shape0 [[1; 10]; [2; 20]]%Z) as Hm by (simpl; lia).
  assert (delete "raw.tab" (w_files Demo.world) !! "raw.tab" = None) as Hgone
    by apply lookup_delete_eq.
  split; [exact Hacc|]. split; [exact Hn|]. split; [exact Hraw|].
  split; [exact He|]. split; [exact Hm|]. split; [exact Hgone|].
  exact (header_failure_keeps_container Demo.engine_dropping Demo.traceback Demo.args_bins
           Demo.world _ _ _ _ Hacc Hn Hraw He Hm Hgone).
Defined.

Lemma status_zero_means_saved_witness :
  labels_accepted Demo.args_plain ∧
  (run (Demo.engine Demo.in_order) Demo.traceback Demo.args_plain Demo.world).1 = 0%Z ∧
  ∃ m, (Demo.engine Demo.in_order (engine_call Demo.args_plain)
                    (w_files Demo.world)).1.1 = inr m ∧
       2 ≤ shape0 m ∧
       2 ≤ length (bwfiles Demo.args_plain) ∧
       w_npz (run (Demo.engine Demo.in_order) Demo.traceback Demo.args_plain Demo.world).2
         !! outFileName Demo.args_plain
       = Some {| npz_matrix := m; npz_labels := Some (final_labels Demo.args_plain) |}.
Proof.
  assert (labels_accepted Demo.args_plain) as Hacc by (left; reflexivity).
  assert ((run (Demo.engine Demo.in_order) Demo.traceback Demo.args_plain Demo.world).1 = 0%Z)
    as Hzero by (vm_compute; reflexivity).
  split; [exact Hacc|]. split; [exact Hzero|].
  exact (status_zero_means_saved (Demo.engine Demo.in_order) Demo.traceback Demo.args_plain
           Demo.world Hacc Hzero).
Defined.

Lemma labels_do_not_change_scores_witness :
  labels_accepted Demo.args_bins ∧
  labels_accepted (set_labels Demo.args_bins (Some ["ctrl"; "chip"])) ∧
  let r1 := run (Demo.engine Demo.in_order) Demo.traceback Demo.args_bins Demo.world in
  let r2 := run (Demo.engine Demo.in_order) Demo.traceback
                (set_labels Demo.args_bins (Some ["ctrl"; "chip"])) Demo.world in
  r1.1 = r2.1 ∧
  w_calls r1.2 = w_calls r2.2 ∧
  w_stdout r1.2 = w_stdout r2.2 ∧
  w_stderr r1.2 = w_stderr r2.2 ∧
  npz_matrix <$> (w_npz r1.2 !! outFileName Demo.args_bins)
    = npz_matrix <$> (w_npz r2.2 !! outFileName Demo.args_bins) ∧
  (∀ name, outRawCounts Demo.args_bins ≠ Some name →
           w_files r1.2 !! name = w_files r2.2 !! name).
Proof.
  assert (labels_accepted Demo.args_bins) as Hacc1 by (left; reflexivity).
  assert (labels_accepted (set_labels Demo.args_bins (Some ["ctrl"; "chip"])))
    as Hacc2 by (right; reflexivity).
  split; [exact Hacc1|]. split; [exact Hacc2|].
  exact (labels_do_not_change_scores (Demo.engine Demo.in_order) Demo.traceback Demo.args_bins
           (Some ["ctrl"; "chip"]) Demo.world Hacc1 Hacc2).
Defined.

(** The two runs do differ in the header of the raw file. *)
Example labels_change_header :
  first_line <$> w_files (run (Demo.engine Demo.in_order) Demo.traceback
                              (set_labels Demo.args_bins (Some ["ctrl"; "chip"]))
                              Demo.world).2 !! "raw.tab"
  = Some (header_line ["ctrl"; "chip"]).
Proof. vm_compute. reflexivity. Qed.

Lemma exceptions_of_main_witness :
  (main (Demo.engine Demo.in_order) Demo.args_bad_bin Demo.world).1
    = Raised (ConfigurationError "bin size must be positive") ∧
  ((Demo.engine Demo.in_order (engine_call Demo.args_bad_bin)
                (w_files Demo.world)).1.1
   = inl (ConfigurationError "bin size must be positive") ∨
   (∃ name, ConfigurationError "bin size must be positive" = IOError name ∧
            outRawCounts Demo.args_bad_bin = Some name ∧
            (Demo.engine Demo.in_order (engine_call Demo.args_bad_bin)
                         (w_files Demo.world)).1.2 !! name = None)).
Proof.
  assert ((main (Demo.engine Demo.in_order) Demo.args_bad_bin Demo.world).1
          = Raised (ConfigurationError "bin size must be positive")) as Hraised
    by (vm_compute; reflexivity).
  split; [exact Hraised|].
  exact (exceptions_of_main (Demo.engine Demo.in_order) Demo.args_bad_bin
           Demo.world _ Hraised).
Defined.

End FurtherExamples.
